(** * Resumable iteration: [pytorch_lightning/utilities/auto_restart.py]

    A shallow embedding of the fault-tolerant iteration helpers of
    PyTorch Lightning: the [FastForwardSampler] that counts and
    fast-forwards the items of a wrapped sampler, the batch stripping of
    [CaptureIterableDataset], the worker-cycle bookkeeping over a
    multiprocessing data-loader iterator, and the data-loader level
    save and restore entry points.

    Python integers are [Z]; dictionaries keyed by worker id or by
    attribute name are [gmap]; dictionaries whose iteration order matters
    are association lists.  Methods that mutate [self] or raise are
    functions in a small state-and-exception monad. *)

From stdpp Require Import gmap strings list.

Set Warnings "-register-all".
Local Open Scope Z_scope.

(** ** Exceptions and the state-and-exception monad *)

Inductive exn :=
| KeyError
| IndexError
| TypeError
| AssertionError
| AttributeError
| ZeroDivisionError
| RecursionError
| StopIteration.

Inductive outcome (A : Type) :=
| Ok (a : A)
| Raise (e : exn).
Arguments Ok {A} a.
Arguments Raise {A} e.

(** A Python method on an object of state [S]: it returns or raises, and in
    both cases leaves a (possibly mutated) object behind. *)
Definition Py (S A : Type) : Type := S → outcome A * S.

#[global] Instance Py_ret {S} : MRet (Py S) := λ A a s, (Ok a, s).
#[global] Instance Py_bind {S} : MBind (Py S) := λ A B f m s,
  match m s with
  | (Ok a, s') => f a s'
  | (Raise e, s') => (Raise e, s')
  end.

Definition raise {S A} (e : exn) : Py S A := λ s, (Raise e, s).
Definition gets {S A} (f : S → A) : Py S A := λ s, (Ok (f s), s).
Definition modify {S} (f : S → S) : Py S unit := λ s, (Ok tt, f s).

(** [d[k]] on a dictionary: [KeyError] when the key is absent. *)
Definition getitem {S K V} `{Countable K} (d : gmap K V) (k : K) : Py S V :=
  match d !! k with
  | Some v => mret v
  | None => raise KeyError
  end.

(** ** The ambient worker context

    [torch.utils.data.get_worker_info()] is [None] in the main process and
    carries the worker's id inside a worker process. *)
Definition worker_info := option Z.

(** The serialised position state, [Dict[int, Dict[str, int]]]. *)
Abbreviation sampler_state := (gmap Z (gmap string Z)).

(** ** class FastForwardSampler *)
Module FastForwardSampler.

Section Sampler.
Context {A : Type}.

(** The instance attributes set by [__init__].  The wrapped sampler is a
    deterministic finite producer: the list of the items one pass emits. *)
Record t := Build {
  _sampler : list A;
  restarting : bool;
  _current_iteration : Z;
  _dataloader_batch_size : option Z;
  _cached_state_dict : option sampler_state
}.

Definition __init__ (sampler : list A) : t :=
  {| _sampler := sampler;
     restarting := false;
     _current_iteration := 0;
     _dataloader_batch_size := None;
     _cached_state_dict := None |}.

Definition set_restarting (b : bool) (self : t) : t :=
  {| _sampler := _sampler self;
     restarting := b;
     _current_iteration := _current_iteration self;
     _dataloader_batch_size := _dataloader_batch_size self;
     _cached_state_dict := _cached_state_dict self |}.

Definition set_current_iteration (c : Z) (self : t) : t :=
  {| _sampler := _sampler self;
     restarting := restarting self;
     _current_iteration := c;
     _dataloader_batch_size := _dataloader_batch_size self;
     _cached_state_dict := _cached_state_dict self |}.

Definition set_dataloader_batch_size (m : option Z) (self : t) : t :=
  {| _sampler := _sampler self;
     restarting := restarting self;
     _current_iteration := _current_iteration self;
     _dataloader_batch_size := m;
     _cached_state_dict := _cached_state_dict self |}.

Definition set_cached_state_dict (c : option sampler_state) (self : t) : t :=
  {| _sampler := _sampler self;
     restarting := restarting self;
     _current_iteration := _current_iteration self;
     _dataloader_batch_size := _dataloader_batch_size self;
     _cached_state_dict := c |}.

Definition setup (dataloader_batch_size : option Z) (self : t) : t :=
  set_dataloader_batch_size dataloader_batch_size self.

(** The [worker_id] property: resolved from the ambient context at each use. *)
Definition worker_id (info : worker_info) : Z :=
  match info with
  | Some id => id
  | None => 0
  end.

(** [if self._dataloader_batch_size:] is a truthiness test: both [None] and
    [0] leave the count unscaled. *)
Definition _compute_current_iteration (self : t)
    (num_batches_processed : option Z) : Z :=
  let current_iteration :=
    match num_batches_processed with
    | Some n => n
    | None => _current_iteration self
    end in
  match _dataloader_batch_size self with
  | Some m => if m =? 0 then current_iteration else current_iteration * m
  | None => current_iteration
  end.

Definition state_dict (info : worker_info) (self : t)
    (num_batches_processed : option Z) : sampler_state :=
  {[ worker_id info :=
       {[ "current_iteration" :=
            _compute_current_iteration self num_batches_processed ]} ]}.

(** [deepcopy] of a plain dictionary is the same value. *)
Definition load_state_dict (info : worker_info) (state_dict : sampler_state)
    (workers_initialized : bool) : Py t unit :=
  if bool_decide (1 < size state_dict)%nat && negb workers_initialized then
    modify (set_cached_state_dict (Some state_dict));;
    entry ← getitem state_dict (worker_id info);
    c ← getitem entry "current_iteration";
    modify (set_restarting (bool_decide (0 < c)))
  else
    entry ← getitem state_dict (worker_id info);
    c ← getitem entry "current_iteration";
    modify (set_current_iteration c);;
    modify (set_restarting (bool_decide (0 < c))).

(** *** The generator returned by [__iter__]

    A generator object is its suspended frame.  [Created] is the generator
    before its first [next]: the test on [self.restarting] runs then, not
    when [iter(sampler)] is called. *)
Inductive frame :=
| Created
| InNormal (rest : list A)
| InRestart (i : Z) (rest : list A)
| Finished.

(** Resuming the loop of the normal branch. *)
Definition normal_loop (rest : list A) : Py t (option A * frame) :=
  match rest with
  | batch :: rest' =>
      c ← gets _current_iteration;
      modify (set_current_iteration (c + 1));;
      mret (Some batch, InNormal rest')
  | [] =>
      modify (set_current_iteration 0);;
      mret (None, Finished)
  end.

(** The cached state is reloaded when the current worker's id is in it. *)
Definition reload_cached_state (info : worker_info) : Py t unit :=
  cached ← gets _cached_state_dict;
  match cached with
  | Some sd =>
      if bool_decide (is_Some (sd !! worker_id info)) then
        load_state_dict info sd true;;
        modify (set_cached_state_dict None)
      else mret tt
  | None => mret tt
  end.

(** Resuming the loop of the restart branch at enumerate index [i]. *)
Fixpoint restart_loop (info : worker_info) (i : Z) (rest : list A)
    : Py t (option A * frame) :=
  match rest with
  | batch :: rest' =>
      reload_cached_state info;;
      c ← gets _current_iteration;
      if bool_decide (c ≤ i) then
        modify (set_current_iteration (c + 1));;
        mret (Some batch, InRestart (i + 1) rest')
      else restart_loop info (i + 1) rest'
  | [] =>
      modify (set_current_iteration 0);;
      mret (None, Finished)
  end.

Definition resume (info : worker_info) (g : frame) : Py t (option A * frame) :=
  match g with
  | Created =>
      r ← gets restarting;
      sampler ← gets _sampler;
      if negb r then normal_loop sampler else restart_loop info 0 sampler
  | InNormal rest => normal_loop rest
  | InRestart i rest => restart_loop info i rest
  | Finished => mret (None, Finished)
  end.

(** [next(gen)]: [Ok (Some x)] is a yielded item, [Ok None] is
    [StopIteration]; an exception escaping the body finishes the generator. *)
Definition next (info : worker_info) (g : frame) (self : t)
    : outcome (option A) * frame * t :=
  match resume info g self with
  | (Ok (y, g'), self') => (Ok y, g', self')
  | (Raise e, self') => (Raise e, Finished, self')
  end.

(** The items the generator has still to draw from the wrapped sampler. *)
Definition remaining (g : frame) (self : t) : nat :=
  match g with
  | Created => length (_sampler self)
  | InNormal rest | InRestart _ rest => length rest
  | Finished => 0
  end.

(** [k] calls of [next], collecting what they yield. *)
Fixpoint next_n (k : nat) (info : worker_info) (g : frame) (self : t)
    : outcome (list A) * frame * t :=
  match k with
  | O => (Ok [], g, self)
  | S k' =>
      match next info g self with
      | (Ok (Some x), g', self') =>
          match next_n k' info g' self' with
          | (Ok xs, g'', self'') => (Ok (x :: xs), g'', self'')
          | r => r
          end
      | (Ok None, g', self') => (Ok [], g', self')
      | (Raise e, g', self') => (Raise e, g', self')
      end
  end.

(** [list(gen)]: [next] until [StopIteration].  [None] when the fuel does not
    suffice. *)
Fixpoint exhaust (fuel : nat) (info : worker_info) (g : frame) (self : t)
    : option (outcome (list A) * frame * t) :=
  match fuel with
  | O => None
  | S fuel' =>
      match next info g self with
      | (Ok (Some x), g', self') =>
          match exhaust fuel' info g' self' with
          | Some (Ok xs, g'', self'') => Some (Ok (x :: xs), g'', self'')
          | r => r
          end
      | (Ok None, g', self') => Some (Ok [], g', self')
      | (Raise e, g', self') => Some (Raise e, g', self')
      end
  end.

(** One pass [for x in sampler]: a new generator run to its end. *)
Definition run_pass (fuel : nat) (info : worker_info) (self : t)
    : option (outcome (list A) * frame * t) :=
  exhaust fuel info Created self.

End Sampler.

Arguments t : clear implicits.
Arguments frame : clear implicits.

(** *** Attribute access

    [__getattr__] is the fallback Python calls when the ordinary lookup of
    [self.key] (instance dictionary, then the type) raises [AttributeError].
    Objects are opaque here: [builtin_getattr o key] is the interpreter's
    [getattr(o, key)] on an object other than the sampler itself, and
    [type_lookup key] is the lookup of [key] through the class
    (methods, properties, inherited attributes). *)
Section Attributes.
Context {Obj : Type}.
Variable PyNone : Obj.
Variable builtin_getattr : Obj → string → outcome Obj.
Variable type_lookup : string → outcome Obj.

(** An instance as the interpreter sees it: its [__dict__]. *)
Definition instance := gmap string Obj.

(** [getattr(o, key, default)] swallows [AttributeError] only. *)
Definition getattr3 (o : Obj) (key : string) (default : Obj) : outcome Obj :=
  match builtin_getattr o key with
  | Ok v => Ok v
  | Raise AttributeError => Ok default
  | Raise e => Raise e
  end.

(** [self.key] with [fallback] as the class's [__getattr__]. *)
Definition getattribute (fallback : instance → string → outcome Obj)
    (self : instance) (key : string) : outcome Obj :=
  match self !! key with
  | Some v => Ok v
  | None =>
      match type_lookup key with
      | Raise AttributeError => fallback self key
      | r => r
      end
  end.

(** [depth] is the interpreter's remaining recursion depth: [self._sampler]
    inside [__getattr__] is itself an attribute access. *)
Fixpoint __getattr__ (depth : nat) (self : instance) (key : string)
    : outcome Obj :=
  match self !! key with
  | Some v => Ok v
  | None =>
      match depth with
      | O => Raise RecursionError
      | S depth' =>
          match getattribute (__getattr__ depth') self "_sampler" with
          | Ok sampler => getattr3 sampler key PyNone
          | Raise e => Raise e
          end
      end
  end.

(** The expression [sampler.key] on a [FastForwardSampler]. *)
Definition attribute_access (depth : nat) (self : instance) (key : string)
    : outcome Obj :=
  getattribute (__getattr__ depth) self key.

(** [__len__] returns [len(self.sampler)]: the attribute [sampler], not
    [_sampler].  [builtin_len o] is the interpreter's [len(o)]. *)
Variable builtin_len : Obj → outcome Z.

Definition __len__ (depth : nat) (self : instance) : outcome Z :=
  match attribute_access depth self "sampler" with
  | Ok sampler => builtin_len sampler
  | Raise e => Raise e
  end.

End Attributes.

End FastForwardSampler.

(** ** class CaptureIterableDataset: stripping the captured state

    Only the static methods that decode a collated batch are embedded. *)
Module CaptureIterableDataset.

(** Dictionary keys of a batch: attribute names or worker ids. *)
Inductive key :=
| KStr (s : string)
| KInt (z : Z).

#[global] Instance key_eq_dec : EqDecision key.
Proof. solve_decision. Defined.

(** A collated batch, as a tree: an object that occurs twice in the Python
    value is not represented.  [ty] names the concrete class of a container
    ([elem_type]).  A [Mapping] is a dict or an instance of a subclass that
    keeps dict's lookups, [pop] and [items]; a [Sequence] is a sequence other
    than a string and a named tuple.  A [Tensor] is a one-dimensional tensor
    of integers, as collation makes of the per-item counters and worker ids;
    [Atom] is every other leaf (numbers, strings, data tensors). *)
Inductive batch {Leaf : Type} :=
| Atom (a : Leaf)
| Tensor (xs : list Z)
| Mapping (ty : string) (items : list (key * batch))
| Sequence (ty : string) (items : list batch)
| NamedTuple (ty : string) (items : list batch)
| Dataclass (ty : string) (fields : list (string * batch)).
Arguments batch : clear implicits.

(** One extracted state: sampler name to position state, in insertion
    order. *)
Definition extracted_state := list (key * sampler_state).

(** What the walk asks of code that is not in this file: the equality of
    the enumeration member [AutoRestartBatchKeys.PL_SAMPLERS] (declared in
    [pytorch_lightning/utilities/enums.py]), the constructors of the
    container classes of the batch, and the answers of objects that are
    neither dicts nor tensors to the methods called on them. *)
Record runtime {Leaf : Type} := Runtime {
  (** [k == AutoRestartBatchKeys.PL_SAMPLERS] *)
  is_pl_samplers : key → bool;
  (** [elem_type(OrderedDict(out))] *)
  new_mapping : string → list (key * batch Leaf) → outcome (batch Leaf);
  (** [elem_type(out)] *)
  new_sequence : string → list (batch Leaf) → outcome (batch Leaf);
  (** [elem_type] called on the items of [out] as positional arguments *)
  new_namedtuple : string → list (batch Leaf) → outcome (batch Leaf);
  (** [elem_type] called on the fields of [out] as keyword arguments *)
  new_dataclass : string → list (string * batch Leaf) → outcome (batch Leaf);
  (** [v.pop("id")] on a [v] that is not a dict: the value popped and [v]
      as the call leaves it *)
  pop_other : batch Leaf → outcome (batch Leaf * batch Leaf);
  (** [v.items()] on a [v] that is not a dict *)
  items_other : batch Leaf → outcome (list (key * batch Leaf));
  (** [d[k]] on a [d] that is not a dict *)
  getitem_other : batch Leaf → key → outcome (batch Leaf);
  (** [x[-1].item()] on an [x] that is not a tensor *)
  last_item_other : batch Leaf → outcome Z
}.
Arguments runtime : clear implicits.

Section Stripping.
Context {Leaf : Type}.
Variable R : runtime Leaf.

Abbreviation batch := (batch Leaf).

(** [d[k]] on the items of a dictionary. *)
Fixpoint assoc {K V} `{EqDecision K} (k : K) (items : list (K * V))
    : option V :=
  match items with
  | [] => None
  | (k', v) :: items' => if decide (k' = k) then Some v else assoc k items'
  end.

(** [d.pop(k)]: the value and the remaining items. *)
Fixpoint pop {K V} `{EqDecision K} (k : K) (items : list (K * V))
    : option (V * list (K * V)) :=
  match items with
  | [] => None
  | (k', v) :: items' =>
      if decide (k' = k) then Some (v, items')
      else
        match pop k items' with
        | Some (x, rest) => Some (x, (k', v) :: rest)
        | None => None
        end
  end.

Definition index_key (d : batch) (k : key) : outcome batch :=
  match d with
  | Mapping _ items =>
      match assoc k items with
      | Some v => Ok v
      | None => Raise KeyError
      end
  | _ => getitem_other R d k
  end.

(** [x[-1].item()] *)
Definition last_item (x : batch) : outcome Z :=
  match x with
  | Tensor xs =>
      match last xs with
      | Some z => Ok z
      | None => Raise IndexError
      end
  | _ => last_item_other R x
  end.

(** [v.pop("id")]: the value popped and [v] as the call leaves it. *)
Definition pop_id (v : batch) : outcome (batch * batch) :=
  match v with
  | Mapping ty items =>
      match pop (KStr "id") items with
      | Some (batch_worker_id, items') => Ok (batch_worker_id, Mapping ty items')
      | None => Raise KeyError
      end
  | _ => pop_other R v
  end.

(** [v.items()] *)
Definition items_of (v : batch) : outcome (list (key * batch)) :=
  match v with
  | Mapping _ items => Ok items
  | _ => items_other R v
  end.

(** [sampler_state_dict[worker_id]["current_iteration"][-1].item()] *)
Definition last_current_iteration (sampler_state_dict : batch) (worker_id : Z)
    : outcome Z :=
  match index_key sampler_state_dict (KInt worker_id) with
  | Ok per_worker =>
      match index_key per_worker (KStr "current_iteration") with
      | Ok counts => last_item counts
      | Raise e => Raise e
      end
  | Raise e => Raise e
  end.

(** The loop over [v.items()] that fills [iterable_dataset_state_dict]. *)
Fixpoint extract_samplers (worker_id : Z) (items : list (key * batch))
    : outcome extracted_state :=
  match items with
  | [] => Ok []
  | (sampler_name, sampler_state_dict) :: items' =>
      match last_current_iteration sampler_state_dict worker_id with
      | Ok c =>
          match extract_samplers worker_id items' with
          | Ok st =>
              Ok ((sampler_name,
                   {[ worker_id := {[ "current_iteration" := c ]} ]}) :: st)
          | Raise e => Raise e
          end
      | Raise e => Raise e
      end
  end.

(** The marker branch on the value [v] under the marker key: the mutated
    [v] (its ["id"] entry popped) and the extracted state. *)
Definition extract_marker (v : batch) : outcome (batch * extracted_state) :=
  match pop_id v with
  | Ok (batch_worker_id, v') =>
      match last_item batch_worker_id with
      | Ok worker_id =>
          match items_of v' with
          | Ok items =>
              match extract_samplers worker_id items with
              | Ok st => Ok (v', st)
              | Raise e => Raise e
              end
          | Raise e => Raise e
          end
      | Raise e => Raise e
      end
  | Raise e => Raise e
  end.

(** A constructor call whose exception leaves the walk. *)
Definition construct {S X} (made : outcome X) : Py S X :=
  match made with
  | Ok x => mret x
  | Raise e => raise e
  end.

(** The three loops of [_sanetize_batch_from_sampler_state], over the
    recursive call [rec].  Each result pairs what the call returns with its
    argument as the call leaves it: the marker branch mutates in place. *)
Section Loops.
Variable rec : batch → Py (list extracted_state) (batch * batch).

(** [for k, v in data.items()]: left at once when the marker is met. *)
Fixpoint walk_mapping (ty : string) (todo out done : list (key * batch))
    : Py (list extracted_state) (batch * batch) :=
  match todo with
  | [] =>
      made ← construct (new_mapping R ty out);
      mret (made, Mapping ty done)
  | (k, v) :: todo' =>
      if is_pl_samplers R k then
        match extract_marker v with
        | Ok (v', iterable_dataset_state_dict) =>
            modify (λ state_dict, state_dict ++ [iterable_dataset_state_dict]);;
            let data' := done ++ (k, v') :: todo' in
            match assoc (KStr "data") data' with
            | Some payload => mret (payload, Mapping ty data')
            | None => raise KeyError
            end
        | Raise e => raise e
        end
      else
        r ← rec v;
        walk_mapping ty todo' (out ++ [(k, r.1)]) (done ++ [(k, r.2)])
  end.

(** [for d in data] *)
Fixpoint walk_sequence (todo : list batch)
    : Py (list extracted_state) (list batch * list batch) :=
  match todo with
  | [] => mret ([], [])
  | d :: todo' =>
      r ← rec d;
      rs ← walk_sequence todo';
      mret (r.1 :: rs.1, r.2 :: rs.2)
  end.

(** [for field in data.__dataclass_fields__] *)
Fixpoint walk_fields (todo : list (string * batch))
    : Py (list extracted_state)
         (list (string * batch) * list (string * batch)) :=
  match todo with
  | [] => mret ([], [])
  | (field, d) :: todo' =>
      r ← rec d;
      rs ← walk_fields todo';
      mret ((field, r.1) :: rs.1, (field, r.2) :: rs.2)
  end.

End Loops.

(** [_sanetize_batch_from_sampler_state(data, state_dict)].  The state of
    the monad is the accumulator list [state_dict]. *)
Fixpoint _sanetize_batch_from_sampler_state (data : batch)
    : Py (list extracted_state) (batch * batch) :=
  match data with
  | Mapping ty items =>
      walk_mapping _sanetize_batch_from_sampler_state ty items [] []
  | Sequence ty items =>
      r ← walk_sequence _sanetize_batch_from_sampler_state items;
      made ← construct (new_sequence R ty r.1);
      mret (made, Sequence ty r.2)
  | NamedTuple ty items =>
      r ← walk_sequence _sanetize_batch_from_sampler_state items;
      made ← construct (new_namedtuple R ty r.1);
      mret (made, NamedTuple ty r.2)
  | Dataclass ty fields =>
      r ← walk_fields _sanetize_batch_from_sampler_state fields;
      made ← construct (new_dataclass R ty r.1);
      mret (made, Dataclass ty r.2)
  | Atom _ | Tensor _ => mret (data, data)
  end.

(** [convert_batch_into_state_dict(batch)]: the stripped batch, the list of
    extracted states, and the argument as the call leaves it. *)
Definition convert_batch_into_state_dict (b : batch)
    : outcome (batch * list extracted_state * batch) :=
  match _sanetize_batch_from_sampler_state b [] with
  | (Ok r, samplers_state_dict) => Ok (r.1, samplers_state_dict, r.2)
  | (Raise e, _) => Raise e
  end.

(** *** The captured batches that [__next__] and collation produce

    The specification's side of stripping: which mappings carry a captured
    state, what is extracted from them, what the stripped batch is, and
    what is left of the argument.  These are compared with the walk above. *)

(** The number of marker keys anywhere in a batch. *)
Fixpoint marker_count (b : batch) : nat :=
  match b with
  | Atom _ | Tensor _ => 0%nat
  | Mapping _ items =>
      sum_list_with
        (λ '(k, v), ((if is_pl_samplers R k then 1 else 0)
                     + marker_count v)%nat) items
  | Sequence _ items | NamedTuple _ items => sum_list_with marker_count items
  | Dataclass _ fields => sum_list_with (λ '(_, v), marker_count v) fields
  end.

(** The value under the first marker key of a mapping. *)
Fixpoint find_marker (items : list (key * batch)) : option batch :=
  match items with
  | [] => None
  | (k, v) :: items' => if is_pl_samplers R k then Some v else find_marker items'
  end.

(** The items with the value under the first marker key replaced. *)
Fixpoint replace_marker (v' : batch) (items : list (key * batch))
    : list (key * batch) :=
  match items with
  | [] => []
  | (k, v) :: items' =>
      if is_pl_samplers R k then (k, v') :: items'
      else (k, v) :: replace_marker v' items'
  end.

(** A mapping that carries a captured state: a payload under ["data"] and,
    under the marker, a mapping of the collated worker ids under ["id"] and
    of one collated sampler state under each other key.  The keys may come
    in any order and other keys may be present. *)
Record capture := Capture {
  payload : batch;
  state_ty : string;
  worker_ids : list Z;
  samplers : list (key * batch)
}.

Definition as_capture (items : list (key * batch)) : option capture :=
  match find_marker items, assoc (KStr "data") items with
  | Some (Mapping sty state), Some p =>
      match pop (KStr "id") state with
      | Some (Tensor ids, named) => Some (Capture p sty ids named)
      | _ => None
      end
  | _, _ => None
  end.

(** The counter that a collated sampler state holds for worker [w]: the last
    element of the vector under [w], then ["current_iteration"]. *)
Definition counter_of (w : Z) (sampler_state_dict : batch) : option Z :=
  match sampler_state_dict with
  | Mapping _ per_worker =>
      match assoc (KInt w) per_worker with
      | Some (Mapping _ fields) =>
          match assoc (KStr "current_iteration") fields with
          | Some (Tensor counts) => last counts
          | _ => None
          end
      | _ => None
      end
  | _ => None
  end.

(** The state a capture stands for: one position state per sampler, for the
    worker whose id is the last of the collated ids. *)
Definition state_of_capture (c : capture) : extracted_state :=
  let w := default 0 (last (worker_ids c)) in
  (λ '(name, st),
     (name, {[ w := {[ "current_iteration" := default 0 (counter_of w st) ]} ]}))
  <$> samplers c.

(** The counters of a capture are complete: there is a last worker id, and
    every sampler state holds a counter for it. *)
Definition capture_ok (c : capture) : bool :=
  match last (worker_ids c) with
  | Some w =>
      forallb (λ '(_, st), bool_decide (is_Some (counter_of w st)))
        (samplers c)
  | None => false
  end.

(** A batch is well formed when every mapping that has a marker key is a
    capture with complete counters that has no other marker, neither among
    its keys nor inside its values. *)
Fixpoint well_formed (b : batch) : bool :=
  match b with
  | Atom _ | Tensor _ => true
  | Mapping _ items =>
      match find_marker items with
      | Some _ =>
          match as_capture items with
          | Some c =>
              capture_ok c
              && bool_decide
                   (sum_list_with
                      (λ '(k, v), ((if is_pl_samplers R k then 1 else 0)
                                   + marker_count v)%nat) items = 1%nat)
          | None => false
          end
      | None => forallb (λ '(_, v), well_formed v) items
      end
  | Sequence _ items | NamedTuple _ items => forallb well_formed items
  | Dataclass _ fields => forallb (λ '(_, v), well_formed v) fields
  end.

(** Every conjunct holds of every element. *)
Definition All {X} (P : X → Prop) : list X → Prop :=
  fix all l :=
    match l with
    | [] => True
    | x :: l' => P x ∧ all l'
    end.

(** The batch with every capture replaced by its payload. *)
Fixpoint stripped (b : batch) : batch :=
  match b with
  | Atom _ | Tensor _ => b
  | Mapping ty items =>
      match as_capture items with
      | Some c => payload c
      | None => Mapping ty ((λ '(k, v), (k, stripped v)) <$> items)
      end
  | Sequence ty items => Sequence ty (stripped <$> items)
  | NamedTuple ty items => NamedTuple ty (stripped <$> items)
  | Dataclass ty fields =>
      Dataclass ty ((λ '(f, v), (f, stripped v)) <$> fields)
  end.

(** The argument as stripping leaves it: the ["id"] entry of every captured
    state is gone. *)
Fixpoint left_behind (b : batch) : batch :=
  match b with
  | Atom _ | Tensor _ => b
  | Mapping ty items =>
      match as_capture items with
      | Some c =>
          Mapping ty (replace_marker (Mapping (state_ty c) (samplers c)) items)
      | None => Mapping ty ((λ '(k, v), (k, left_behind v)) <$> items)
      end
  | Sequence ty items => Sequence ty (left_behind <$> items)
  | NamedTuple ty items => NamedTuple ty (left_behind <$> items)
  | Dataclass ty fields =>
      Dataclass ty ((λ '(f, v), (f, left_behind v)) <$> fields)
  end.

(** The extracted states, in the order of the walk. *)
Fixpoint extracted (b : batch) : list extracted_state :=
  match b with
  | Atom _ | Tensor _ => []
  | Mapping _ items =>
      match as_capture items with
      | Some c => [state_of_capture c]
      | None => concat ((λ '(_, v), extracted v) <$> items)
      end
  | Sequence _ items | NamedTuple _ items => concat (extracted <$> items)
  | Dataclass _ fields => concat ((λ '(_, v), extracted v) <$> fields)
  end.

(** The classes of the containers that the walk rebuilds accept the
    stripped items: the constructor returns the container of that class
    with those items, as [dict], [list], [tuple], a named tuple class or a
    data class with the generated [__init__] does.  A mapping that carries
    a capture is not rebuilt, but the values before its marker are. *)
Fixpoint constructible (b : batch) : Prop :=
  match b with
  | Atom _ | Tensor _ => True
  | Mapping ty items =>
      (find_marker items = None →
       let out := (λ '(k, v), (k, stripped v)) <$> items in
       new_mapping R ty out = Ok (Mapping ty out))
      ∧ All (λ '(_, v), constructible v) items
  | Sequence ty items =>
      (let out := stripped <$> items in
       new_sequence R ty out = Ok (Sequence ty out))
      ∧ All constructible items
  | NamedTuple ty items =>
      (let out := stripped <$> items in
       new_namedtuple R ty out = Ok (NamedTuple ty out))
      ∧ All constructible items
  | Dataclass ty fields =>
      (let out := (λ '(f, v), (f, stripped v)) <$> fields in
       new_dataclass R ty out = Ok (Dataclass ty out))
      ∧ All (λ '(_, v), constructible v) fields
  end.

End Stripping.

End CaptureIterableDataset.

(** ** Worker-cycle bookkeeping and the data-loader entry points *)

(** [itertools.cycle(range(period))], about to produce [position]. *)
Record cycle := Cycle {
  period : Z;
  position : Z
}.

(** [next(cycle)]; cycling over an empty range stops at once. *)
Definition cycle_next : Py cycle Z := λ c,
  if bool_decide (period c ≤ 0) then (Raise StopIteration, c)
  else (Ok (position c),
        {| period := period c; position := (position c + 1) `mod` period c |}).

(** [while next(cycle) != target: pass].  [None] when the fuel does not
    suffice. *)
Fixpoint cycle_until (fuel : nat) (target : Z) (c : cycle)
    : option (outcome unit * cycle) :=
  match fuel with
  | O => None
  | S fuel' =>
      match cycle_next c with
      | (Ok idx, c') =>
          if bool_decide (idx ≠ target) then cycle_until fuel' target c'
          else Some (Ok tt, c')
      | (Raise e, c') => Some (Raise e, c')
      end
  end.

(** [for _ in range(n): next(cycle)] *)
Fixpoint cycle_advance (n : nat) : Py cycle unit :=
  match n with
  | O => mret tt
  | S n' => cycle_next;; cycle_advance n'
  end.

Section Coordinator.
Context {A Loader : Type}.

(** The values stored in the per-stage dictionaries of a saved state. *)
Inductive value :=
| VNone
| VInt (z : Z)
| VLoader (l : Loader)
| VSampler (sd : sampler_state).

(** One per-stage dictionary, keys ["num_workers"], ["previous_worker"],
    ["loader"], ["sampler"]. *)
Definition state_entry := gmap string value.

(** A data-loader iterator.  [is_multiprocessing] is
    [isinstance(iter, _MultiProcessingDataLoaderIter)]; [reset_calls] logs
    the arguments of each call of the reset entry point. *)
Record loader_iter := LoaderIter {
  is_multiprocessing : bool;
  _num_workers : option Z;
  _worker_queue_idx_cycle : cycle;
  reset_calls : list (value * bool)
}.

Definition set_cycle (c : cycle) (it : loader_iter) : loader_iter :=
  {| is_multiprocessing := is_multiprocessing it;
     _num_workers := _num_workers it;
     _worker_queue_idx_cycle := c;
     reset_calls := reset_calls it |}.

Definition _reset (loader : value) (first_iter : bool) (it : loader_iter)
    : loader_iter :=
  {| is_multiprocessing := is_multiprocessing it;
     _num_workers := _num_workers it;
     _worker_queue_idx_cycle := _worker_queue_idx_cycle it;
     reset_calls := reset_calls it ++ [(loader, first_iter)] |}.

(** [l[i]] on a Python list: negative indices count from the end. *)
Definition py_index {X} (l : list X) (i : Z) : outcome X :=
  let j := if bool_decide (i < 0) then Z.of_nat (length l) + i else i in
  if bool_decide (j < 0) then Raise IndexError
  else
    match l !! Z.to_nat j with
    | Some x => Ok x
    | None => Raise IndexError
    end.

(** [v == n] for an integer [n]. *)
Definition value_eq_int (v : value) (n : Z) : bool :=
  match v with
  | VInt z => bool_decide (z = n)
  | _ => false
  end.

Definition fetch_previous_worker_state_dict (fuel : nat) (it : loader_iter)
    (out : list state_entry)
    : option (outcome unit * loader_iter * list state_entry) :=
  let num_workers := default 0 (_num_workers it) in
  let append previous_worker :=
    out ++ [ {[ "num_workers" := VInt num_workers;
                "previous_worker" := previous_worker ]} ] in
  if is_multiprocessing it then
    match cycle_next (_worker_queue_idx_cycle it) with
    | (Ok idx, c) =>
        if bool_decide (num_workers = 0)
        then Some (Raise ZeroDivisionError, set_cycle c it, out)
        else
          let next_worker := idx `mod` num_workers in
          let previous_worker := (next_worker - 1) `mod` num_workers in
          match cycle_until fuel previous_worker c with
          | Some (Ok _, c') =>
              Some (Ok tt, set_cycle c' it, append (VInt previous_worker))
          | Some (Raise e, c') => Some (Raise e, set_cycle c' it, out)
          | None => None
          end
    | (Raise e, c) => Some (Raise e, set_cycle c it, out)
    end
  else Some (Ok tt, it, append VNone).

Definition cycle_to_next_worker (fuel : nat) (it : loader_iter)
    (state_dict : list state_entry) (count : Z)
    : option (outcome unit * loader_iter) :=
  match py_index state_dict count with
  | Raise e => Some (Raise e, it)
  | Ok current =>
  match _num_workers it with
  | None => Some (Raise AttributeError, it)
  | Some num_workers =>
  match current !! "num_workers" with
  | None => Some (Raise KeyError, it)
  | Some saved =>
  if negb (value_eq_int saved num_workers)
  then Some (Raise AssertionError, it)
  else if is_multiprocessing it then
    match cycle_until fuel 0 (_worker_queue_idx_cycle it) with
    | None => None
    | Some (Raise e, c) => Some (Raise e, set_cycle c it)
    | Some (Ok _, c) =>
        match current !! "previous_worker" with
        | None => Some (Raise KeyError, set_cycle c it)
        | Some (VInt previous_worker) =>
            match cycle_advance (Z.to_nat (previous_worker - 1)) c with
            | (Raise e, c') => Some (Raise e, set_cycle c' it)
            | (Ok _, c') =>
                match current !! "loader" with
                | None => Some (Raise KeyError, set_cycle c' it)
                | Some loader =>
                    Some (Ok tt, _reset loader true (set_cycle c' it))
                end
            end
        | Some _ => Some (Raise TypeError, set_cycle c it)
        end
    end
  else Some (Ok tt, it)
  end end end.

(** What a data loader holds as [sampler] or [batch_sampler]. *)
Inductive sampler_obj :=
| FastForward (s : FastForwardSampler.t A)
| OtherSampler (class_name : string)
| NoSampler.

Record DataLoader := {
  sampler : sampler_obj;
  batch_sampler : sampler_obj
}.

(** The sampler that [find_fast_forward_samplers] returns is the object the
    data loader holds; it is named by the attribute that holds it. *)
Inductive slot :=
| in_sampler
| in_batch_sampler.

Definition find_fast_forward_samplers (dataloader : DataLoader)
    : option (slot * FastForwardSampler.t A) :=
  match sampler dataloader with
  | FastForward s => Some (in_sampler, s)
  | _ =>
      match batch_sampler dataloader with
      | FastForward s => Some (in_batch_sampler, s)
      | _ => None
      end
  end.

Definition store (sl : slot) (s : FastForwardSampler.t A)
    (dataloader : DataLoader) : DataLoader :=
  match sl with
  | in_sampler =>
      {| sampler := FastForward s; batch_sampler := batch_sampler dataloader |}
  | in_batch_sampler =>
      {| sampler := sampler dataloader; batch_sampler := FastForward s |}
  end.

Definition dataloader_load_state_dict (info : worker_info)
    (state_dict : list state_entry) : Py DataLoader unit := λ dataloader,
  match find_fast_forward_samplers dataloader with
  | Some (sl, fast_forward_sampler) =>
      match py_index state_dict 0 with
      | Ok entry =>
          match entry !! "sampler" with
          | Some (VSampler sd) =>
              let '(r, s') :=
                FastForwardSampler.load_state_dict info sd false
                  fast_forward_sampler in
              (r, store sl s' dataloader)
          | Some _ => (Raise TypeError, dataloader)
          | None => (Raise KeyError, dataloader)
          end
      | Raise e => (Raise e, dataloader)
      end
  | None => (Ok tt, dataloader)
  end.

(** [l[i]] read, updated in place by [f], written back: what
    [l[i][key] = v] does to the list. *)
Definition py_update {X} (l : list X) (i : Z) (f : X → X)
    : outcome (list X) :=
  let j := if bool_decide (i < 0) then Z.of_nat (length l) + i else i in
  if bool_decide (j < 0) then Raise IndexError
  else
    match l !! Z.to_nat j with
    | Some x => Ok (<[ Z.to_nat j := f x ]> l)
    | None => Raise IndexError
    end.

(** [_find_next_worker_id(iter, state_dict, num_workers)]: the rotation of
    [fetch_previous_worker_state_dict] with the worker count passed in, the
    result written into a dictionary the caller holds. *)
Definition _find_next_worker_id (fuel : nat) (it : loader_iter)
    (state_dict : state_entry) (num_workers : Z)
    : option (outcome unit * loader_iter * state_entry) :=
  let update it' previous_worker :=
    match _num_workers it' with
    | Some n =>
        Some (Ok tt, it',
              <[ "num_workers" := VInt n ]>
                (<[ "previous_worker" := previous_worker ]> state_dict))
    | None => Some (Raise AttributeError, it', state_dict)
    end in
  if is_multiprocessing it then
    match cycle_next (_worker_queue_idx_cycle it) with
    | (Ok idx, c) =>
        if bool_decide (num_workers = 0)
        then Some (Raise ZeroDivisionError, set_cycle c it, state_dict)
        else
          let next_worker := idx `mod` num_workers in
          let previous_worker := (next_worker - 1) `mod` num_workers in
          match cycle_until fuel previous_worker c with
          | Some (Ok _, c') => update (set_cycle c' it) (VInt previous_worker)
          | Some (Raise e, c') => Some (Raise e, set_cycle c' it, state_dict)
          | None => None
          end
    | (Raise e, c) => Some (Raise e, set_cycle c it, state_dict)
    end
  else update it VNone.

(** [fetch_fast_forward_samplers_state_dict(dataloader, out, count)]: the
    state of the list [out] is threaded; the data loader is only read. *)
Definition fetch_fast_forward_samplers_state_dict (info : worker_info)
    (dataloader : DataLoader) (count : Z) : Py (list state_entry) unit :=
  λ out,
  match find_fast_forward_samplers dataloader with
  | Some (_, fast_forward_samplers) =>
      let out1 :=
        match py_index out count with
        | Ok _ => out
        | Raise _ => out ++ [∅]
        end in
      let state :=
        VSampler (FastForwardSampler.state_dict info fast_forward_samplers None) in
      match py_update out1 count (<[ "sampler" := state ]>) with
      | Ok out2 => (Ok tt, out2)
      | Raise e => (Raise e, out1)
      end
  | None => (Ok tt, out)
  end.

(** [fast_forward_sampler_load_state_dict(dataloader, state_dict, count)]:
    the state is looked up before the sampler is searched for. *)
Definition fast_forward_sampler_load_state_dict (info : worker_info)
    (state_dict : list state_entry) (count : Z) : Py DataLoader unit :=
  λ dataloader,
  match py_index state_dict count with
  | Raise e => (Raise e, dataloader)
  | Ok entry =>
      match entry !! "sampler" with
      | None => (Raise KeyError, dataloader)
      | Some current_state_dict =>
          match find_fast_forward_samplers dataloader with
          | Some (sl, fast_forward_samplers) =>
              match current_state_dict with
              | VSampler sd =>
                  let '(r, s') :=
                    FastForwardSampler.load_state_dict info sd false
                      fast_forward_samplers in
                  (r, store sl s' dataloader)
              | _ => (Raise TypeError, dataloader)
              end
          | None => (Ok tt, dataloader)
          end
      end
  end.

(** [dataloader_to_state_dict(dataloader, iter)]: the list it returns, and
    the iterator as the rotation leaves it. *)
Definition dataloader_to_state_dict (fuel : nat) (info : worker_info)
    (dataloader : DataLoader) (iter : option loader_iter)
    : option (outcome (list state_entry) * option loader_iter) :=
  let finish out iter' :=
    match fetch_fast_forward_samplers_state_dict info dataloader 0 out with
    | (Ok _, out') => Some (Ok out', iter')
    | (Raise e, _) => Some (Raise e, iter')
    end in
  match iter with
  | Some it =>
      match fetch_previous_worker_state_dict fuel it [] with
      | Some (Ok _, it', out) => finish out (Some it')
      | Some (Raise e, it', _) => Some (Raise e, Some it')
      | None => None
      end
  | None => finish [] None
  end.

End Coordinator.

Arguments value : clear implicits.
Arguments state_entry : clear implicits.
Arguments loader_iter : clear implicits.
Arguments sampler_obj : clear implicits.
Arguments DataLoader : clear implicits.

(** ** Sample inputs

    Concrete samplers, iterators and batches on which the properties below
    are run. *)

Import FastForwardSampler CaptureIterableDataset.

(** The two-worker state of the specification's scenario. *)
Definition two_workers : sampler_state :=
  {[ 0 := {[ "current_iteration" := 2 ]};
     1 := {[ "current_iteration" := 5 ]} ]}.


(** A multiprocessing iterator over three workers, cursor at worker 1. *)
Definition three_worker_iter : loader_iter string :=
  LoaderIter true (Some 3) (Cycle 3 1) [].

(** A state saved under two workers. *)
Definition two_worker_entry : state_entry string :=
  {[ "num_workers" := VInt 2; "previous_worker" := VInt 0;
     "loader" := VLoader "loader" ]}.

(** The marker key, as the enumeration spells it. *)
Definition pl_samplers : key := KStr "__pl_samplers".

(** A collated item of two samples drawn by worker 0, the sampler at
    positions 2 and 3. *)
Definition captured_item : batch Z :=
  Mapping "dict"
    [(KStr "data", Atom 7);
     (pl_samplers,
      Mapping "dict"
        [(KStr "id", Tensor [0; 0]);
         (KStr "sampler",
          Mapping "dict"
            [(KInt 0,
              Mapping "dict" [(KStr "current_iteration", Tensor [2; 3])])])])].

(** Lower case of an ASCII letter and of a string. *)
Definition lower_ascii (c : Ascii.ascii) : Ascii.ascii :=
  let n := Ascii.nat_of_ascii c in
  if Nat.leb 65 n && Nat.leb n 90 then Ascii.ascii_of_nat (n + 32) else c.

Fixpoint lower (s : string) : string :=
  match s with
  | EmptyString => EmptyString
  | String c s' => String (lower_ascii c) (lower s')
  end.

(** [l[i]] on a list, for the runtime below. *)
Definition list_item (l : list (batch Z)) (i : Z) : outcome (batch Z) :=
  let j := if bool_decide (i < 0) then Z.of_nat (length l) + i else i in
  if bool_decide (j < 0) then Raise IndexError
  else
    match l !! Z.to_nat j with
    | Some x => Ok x
    | None => Raise IndexError
    end.

(** A runtime for the sample batches, whose leaves are numbers.  The marker
    is met by every spelling of [pl_samplers], whatever the case of its
    letters.  [dict], [list], [tuple], named tuples and data classes are
    built from their items, while [defaultdict] and [range] refuse them with
    [TypeError].  Of the objects that are not dicts, a list refuses [pop] by
    a string with [TypeError] and the others have no [pop]; none has
    [items]; lists and tuples are indexed by position and not by a string,
    a number and a data class are not subscriptable, and a tensor has no
    entry under the keys of a state; an empty list has no last element, the
    last element of a list or a tuple of numbers has no [item], and a dict
    of the samples has no key [-1]. *)
Definition sample_runtime : runtime Z :=
  {| is_pl_samplers k :=
       match k with
       | KStr s => bool_decide (lower s = "__pl_samplers")
       | KInt _ => false
       end;
     new_mapping ty out :=
       if decide (ty = "defaultdict") then Raise TypeError
       else Ok (Mapping ty out);
     new_sequence ty out :=
       if decide (ty = "range") then Raise TypeError
       else Ok (Sequence ty out);
     new_namedtuple ty out := Ok (NamedTuple ty out);
     new_dataclass ty out := Ok (Dataclass ty out);
     pop_other v :=
       match v with
       | Sequence ty _ =>
           if decide (ty = "list") then Raise TypeError
           else Raise AttributeError
       | _ => Raise AttributeError
       end;
     items_other _ := Raise AttributeError;
     getitem_other d k :=
       match d, k with
       | Sequence _ items, KInt i | NamedTuple _ items, KInt i =>
           list_item items i
       | Tensor _, _ => Raise IndexError
       | _, _ => Raise TypeError
       end;
     last_item_other x :=
       match x with
       | Sequence _ [] | NamedTuple _ [] => Raise IndexError
       | Sequence _ _ | NamedTuple _ _ => Raise AttributeError
       | Mapping _ _ => Raise KeyError
       | _ => Raise TypeError
       end |}.

(** A collated item whose marker is spelt in upper case and comes first,
    with the worker ids after the sampler state and a key of its own. *)
Definition captured_item_reordered : batch Z :=
  Mapping "dict"
    [(KStr "__PL_SAMPLERS",
      Mapping "dict"
        [(KStr "sampler",
          Mapping "dict"
            [(KInt 1,
              Mapping "dict" [(KStr "current_iteration", Tensor [4; 5])])]);
         (KStr "id", Tensor [1; 1])]);
     (KStr "index", Tensor [8; 9]);
     (KStr "data", Sequence "list" [Atom 3; Atom 4])].

(** * Properties *)

(** ** The position tracker *)

Ltac py_unfold :=
  unfold mbind, Py_bind, mret, Py_ret, modify, gets, raise, getitem in *.

Section SamplerFacts.
Context {A : Type}.
Implicit Types (self : FastForwardSampler.t A) (info : worker_info).
Implicit Types (rest items : list A) (g : frame A).

Lemma load_state_dict_own_entry info c wi self :
  load_state_dict info {[ worker_id info := {[ "current_iteration" := c ]} ]}
    wi self
  = (Ok tt, set_restarting (bool_decide (0 < c)) (set_current_iteration c self)).
Proof.
  unfold load_state_dict. rewrite map_size_singleton.
  rewrite bool_decide_eq_false_2 by lia. simpl.
  py_unfold. rewrite lookup_singleton_eq. simpl.
  rewrite lookup_singleton_eq. reflexivity.
Qed.

Lemma load_state_dict_known info sd entry c self :
  sd !! worker_id info = Some entry →
  entry !! "current_iteration" = Some c →
  load_state_dict info sd true self
  = (Ok tt, set_restarting (bool_decide (0 < c)) (set_current_iteration c self)).
Proof.
  intros Hsd Hc. unfold load_state_dict.
  rewrite andb_false_r. py_unfold. rewrite Hsd. simpl. rewrite Hc. reflexivity.
Qed.

Lemma load_state_dict_deferred info sd entry c self :
  (1 < size sd)%nat →
  sd !! worker_id info = Some entry →
  entry !! "current_iteration" = Some c →
  load_state_dict info sd false self
  = (Ok tt, set_restarting (bool_decide (0 < c))
              (set_cached_state_dict (Some sd) self)).
Proof.
  intros Hsize Hsd Hc. unfold load_state_dict.
  rewrite bool_decide_eq_true_2 by done. simpl.
  py_unfold. simpl. rewrite Hsd. simpl. rewrite Hc. reflexivity.
Qed.

(** *** The generator, step by step *)

Lemma next_normal_cons info x rest self :
  next info (InNormal (x :: rest)) self
  = (Ok (Some x), InNormal rest,
     set_current_iteration (_current_iteration self + 1) self).
Proof. reflexivity. Qed.

Lemma next_normal_nil info self :
  next info (InNormal []) self
  = (Ok None, Finished, set_current_iteration 0 self).
Proof. reflexivity. Qed.

Lemma next_created_normal info self :
  restarting self = false →
  next info Created self = next info (InNormal (_sampler self)) self.
Proof. intros H. unfold next, resume. py_unfold. rewrite H. reflexivity. Qed.

Lemma next_created_restart info self :
  restarting self = true →
  next info Created self = next info (InRestart 0 (_sampler self)) self.
Proof. intros H. unfold next, resume. py_unfold. rewrite H. reflexivity. Qed.

(** [exhaust] and [next_n] look at the generator only through [next]. *)
Lemma exhaust_same_next fuel info g1 g2 self :
  next info g1 self = next info g2 self →
  exhaust fuel info g1 self = exhaust fuel info g2 self.
Proof. destruct fuel; simpl; [done|]. by intros ->. Qed.

Lemma reload_without_cache info self :
  _cached_state_dict self = None →
  reload_cached_state info self = (Ok tt, self).
Proof. intros H. unfold reload_cached_state. py_unfold. by rewrite H. Qed.

(** Fast-forward: with no cached state, the items before the restored
    position are consumed and dropped. *)
Lemma restart_loop_skip info (d : nat) : ∀ rest i self,
  _cached_state_dict self = None →
  i + Z.of_nat d ≤ _current_iteration self →
  restart_loop info i rest self
  = restart_loop info (i + Z.of_nat d) (drop d rest) self.
Proof.
  induction d as [|d IH]; intros rest i self Hc Hle.
  - rewrite drop_0. by replace (i + Z.of_nat 0) with i by lia.
  - destruct rest as [|x rest]; [done|].
    simpl. py_unfold. rewrite reload_without_cache by done. simpl.
    rewrite bool_decide_eq_false_2 by lia.
    rewrite (IH rest (i + 1) self) by (done || lia).
    f_equal. lia.
Qed.

Lemma set_current_iteration_twice c1 c2 self :
  set_current_iteration c1 (set_current_iteration c2 self)
  = set_current_iteration c1 self.
Proof. reflexivity. Qed.

Lemma exhaust_normal info : ∀ rest fuel self,
  (length rest < fuel)%nat →
  exhaust fuel info (InNormal rest) self
  = Some (Ok rest, Finished, set_current_iteration 0 self).
Proof.
  induction rest as [|x rest IH]; intros [|fuel] self Hf; simpl in Hf; try lia.
  - reflexivity.
  - cbn [exhaust]. rewrite next_normal_cons.
    rewrite IH by lia. reflexivity.
Qed.

Lemma exhaust_restart_in_step info : ∀ rest fuel i self,
  _cached_state_dict self = None →
  _current_iteration self ≤ i →
  (length rest < fuel)%nat →
  exhaust fuel info (InRestart i rest) self
  = Some (Ok rest, Finished, set_current_iteration 0 self).
Proof.
  induction rest as [|x rest IH]; intros [|fuel] i self Hc Hi Hf;
    simpl in Hf; try lia.
  - reflexivity.
  - cbn [exhaust]. unfold next at 1. cbn [resume restart_loop].
    py_unfold. rewrite reload_without_cache by done. cbn.
    rewrite bool_decide_eq_true_2 by lia. cbn.
    rewrite IH; [reflexivity | done | simpl; lia | lia].
Qed.

(** A restored sampler, iterated to the end, yields what lies at and after
    the restored position. *)
Lemma exhaust_restored info fuel self :
  restarting self = true →
  _cached_state_dict self = None →
  (length (_sampler self) < fuel)%nat →
  exhaust fuel info Created self
  = Some (Ok (drop (Z.to_nat (_current_iteration self)) (_sampler self)),
          Finished, set_current_iteration 0 self).
Proof.
  intros Hr Hc Hf.
  remember (Z.to_nat (_current_iteration self)) as d eqn:Hd.
  rewrite (exhaust_same_next fuel info Created
             (InRestart (0 + Z.of_nat d) (drop d (_sampler self)))).
  - apply exhaust_restart_in_step; [done | lia |].
    rewrite length_drop. lia.
  - rewrite next_created_restart by done. unfold next. cbn [resume].
    destruct (decide (0 ≤ _current_iteration self)) as [Hpos|Hneg].
    + by rewrite (restart_loop_skip info d) by (done || lia).
    + replace d with 0%nat by lia. by rewrite drop_0.
Qed.

Lemma exhaust_untouched info fuel self :
  restarting self = false →
  (length (_sampler self) < fuel)%nat →
  exhaust fuel info Created self
  = Some (Ok (_sampler self), Finished, set_current_iteration 0 self).
Proof.
  intros Hr Hf.
  rewrite (exhaust_same_next fuel info Created (InNormal (_sampler self)))
    by by apply next_created_normal.
  by apply exhaust_normal.
Qed.

Lemma next_n_normal info : ∀ (k : nat) rest self,
  (k ≤ length rest)%nat →
  next_n k info (InNormal rest) self
  = (Ok (take k rest), InNormal (drop k rest),
     set_current_iteration (_current_iteration self + Z.of_nat k) self).
Proof.
  induction k as [|k IH]; intros rest self Hk.
  - simpl. rewrite Z.add_0_r. by destruct self.
  - destruct rest as [|x rest]; simpl in Hk; [lia|].
    cbn [next_n]. rewrite next_normal_cons. rewrite IH by lia.
    replace (_current_iteration self + Z.of_nat (S k))
      with (_current_iteration self + 1 + Z.of_nat k) by lia.
    reflexivity.
Qed.

(** Consuming [k] items from a sampler in normal mode. *)
Lemma next_n_created info (k : nat) self :
  restarting self = false →
  (k ≤ length (_sampler self))%nat →
  ∃ g, next_n k info Created self
       = (Ok (take k (_sampler self)), g,
          set_current_iteration (_current_iteration self + Z.of_nat k) self).
Proof.
  intros Hr Hk. destruct k as [|k].
  - exists Created. simpl. rewrite Z.add_0_r. by destruct self.
  - exists (InNormal (drop (S k) (_sampler self))).
    rewrite <- (next_n_normal info) by done.
    cbn [next_n]. by rewrite next_created_normal.
Qed.

(** *** What every pass does, whatever is cached *)

Lemma load_state_dict_keeps_sampler info sd wi self :
  _sampler (load_state_dict info sd wi self).2 = _sampler self.
Proof.
  unfold load_state_dict.
  destruct (bool_decide _ && negb wi); py_unfold; simpl;
    destruct (sd !! worker_id info) as [entry|]; simpl; try done;
    destruct (entry !! "current_iteration"); done.
Qed.

Lemma reload_keeps_sampler info self :
  _sampler (reload_cached_state info self).2 = _sampler self.
Proof.
  unfold reload_cached_state. py_unfold.
  destruct (_cached_state_dict self) as [sd|]; [|done].
  destruct (bool_decide _); [|done].
  pose proof (load_state_dict_keeps_sampler info sd true self) as H.
  destruct (load_state_dict info sd true self) as [[[]|e] s]; simpl in *; done.
Qed.

Lemma restart_loop_cases info : ∀ rest i self,
  match restart_loop info i rest self with
  | (Ok (Some _, g'), self') =>
      (∃ i' rest', g' = InRestart i' rest' ∧ (length rest' < length rest)%nat)
      ∧ _sampler self' = _sampler self
  | (Ok (None, g'), self') => g' = Finished ∧ _current_iteration self' = 0
  | (Raise _, _) => True
  end.
Proof.
  induction rest as [|x rest IH]; intros i self; [done|].
  cbn [restart_loop]. py_unfold.
  pose proof (reload_keeps_sampler info self) as Hs.
  destruct (reload_cached_state info self) as [[[]|e] s1]; [|done].
  simpl in Hs. cbn.
  destruct (bool_decide (_current_iteration s1 ≤ i)).
  - cbn. split; [|done]. exists (i + 1), rest. split; [done|]. simpl; lia.
  - specialize (IH (i + 1) s1).
    destruct (restart_loop info (i + 1) rest s1) as [[[[y|] g']|e] s2];
      [|done..].
    destruct IH as [(i' & rest' & -> & Hlen) Hs2].
    split; [|congruence]. exists i', rest'. split; [done|]. simpl; lia.
Qed.

Lemma next_cases info g self :
  match next info g self with
  | (Ok (Some _), g', self') =>
      g' ≠ Finished ∧ (remaining g' self' < remaining g self)%nat
  | (Ok None, g', self') =>
      g' = Finished ∧ (g ≠ Finished → _current_iteration self' = 0)
  | (Raise _, g', _) => g' = Finished
  end.
Proof.
  assert (Hnormal : ∀ rest,
    match normal_loop rest self with
    | (Ok (Some _, g'), self') =>
        g' ≠ Finished ∧ (remaining g' self' < length rest)%nat
    | (Ok (None, g'), self') => g' = Finished ∧ _current_iteration self' = 0
    | (Raise _, _) => True
    end).
  { intros [|x rest]; unfold normal_loop; py_unfold; simpl; [done|]. split; [done|lia]. }
  assert (Hrestart : ∀ i rest,
    match restart_loop info i rest self with
    | (Ok (Some _, g'), self') =>
        g' ≠ Finished ∧ (remaining g' self' < length rest)%nat
    | (Ok (None, g'), self') => g' = Finished ∧ _current_iteration self' = 0
    | (Raise _, _) => True
    end).
  { intros i rest. pose proof (restart_loop_cases info rest i self) as H.
    destruct (restart_loop info i rest self) as [[[[y|] g']|e] s2]; [|done..].
    by destruct H as [(i' & rest' & -> & Hlen) _]. }
  unfold next. destruct g as [|rest|i rest|]; cbn [resume remaining].
  - py_unfold. destruct (restarting self); cbn [negb].
    + generalize (Hrestart 0 (_sampler self)).
      destruct (restart_loop info 0 (_sampler self) self)
        as [[[[y|] g']|e] s2]; simpl; intuition (done || lia).
    + generalize (Hnormal (_sampler self)).
      destruct (normal_loop (_sampler self) self)
        as [[[[y|] g']|e] s2]; simpl; intuition (done || lia).
  - generalize (Hnormal rest).
    destruct (normal_loop rest self) as [[[[y|] g']|e] s2]; simpl; intuition (done || lia).
  - generalize (Hrestart i rest).
    destruct (restart_loop info i rest self) as [[[[y|] g']|e] s2];
      simpl; intuition (done || lia).
  - cbn. simpl; intuition (done || lia).
Qed.

Lemma next_keeps_sampler info g self :
  _sampler (next info g self).2 = _sampler self.
Proof.
  assert (Hnormal : ∀ rest, _sampler (normal_loop rest self).2 = _sampler self).
  { by intros [|x rest]. }
  assert (Hrestart : ∀ rest i s, _sampler (restart_loop info i rest s).2
                                 = _sampler s).
  { induction rest as [|x rest IH]; intros i s; [done|].
    cbn [restart_loop]. py_unfold.
    pose proof (reload_keeps_sampler info s) as Hs.
    destruct (reload_cached_state info s) as [[[]|e] s1]; [|done].
    simpl in Hs. cbn. destruct (bool_decide _); [done|].
    rewrite IH. done. }
  unfold next. destruct g as [|rest|i rest|]; cbn [resume].
  - py_unfold. destruct (restarting self); cbn [negb].
    + specialize (Hrestart (_sampler self) 0 self).
      by destruct (restart_loop info 0 (_sampler self) self) as [[[]|] ?].
    + specialize (Hnormal (_sampler self)).
      by destruct (normal_loop (_sampler self) self) as [[[]|] ?].
  - specialize (Hnormal rest).
    by destruct (normal_loop rest self) as [[[]|] ?].
  - specialize (Hrestart rest i self).
    by destruct (restart_loop info i rest self) as [[[]|] ?].
  - done.
Qed.

(** A pass always comes to an end, and a pass that ends by exhaustion
    leaves the counter at zero. *)
Lemma exhaust_ends info : ∀ fuel g self,
  (remaining g self < fuel)%nat →
  ∃ r self',
    exhaust fuel info g self = Some (r, Finished, self')
    ∧ _sampler self' = _sampler self
    ∧ (∀ ys, r = Ok ys → g ≠ Finished → _current_iteration self' = 0).
Proof.
  induction fuel as [|fuel IH]; intros g self Hf; [lia|].
  cbn [exhaust].
  pose proof (next_cases info g self) as Hn.
  pose proof (next_keeps_sampler info g self) as Hs.
  destruct (next info g self) as [[[[x|]|e] g'] s1]; simpl in Hs.
  - destruct (IH g' s1) as (r & s2 & -> & Hs2 & Hz); [lia|].
    destruct Hn as [Hg' Hn].
    destruct r as [ys|e].
    + exists (Ok (x :: ys)), s2. split; [done|]. split; [congruence|].
      intros ? _ _. by apply (Hz ys).
    + exists (Raise e), s2. split; [done|]. split; [congruence|]. done.
  - destruct Hn as [-> Hz]. exists (Ok []), s1. naive_solver.
  - subst g'. exists (Raise e), s1. naive_solver.
Qed.

(** *** Snapshot and restore *)

(** C1 — Fast-forward correctness.  A sampler constructed around a producer
    of [N] items yields the first [k] of them ([k < N]); its [state_dict()]
    is loaded, under the same worker id, into a sampler newly built around
    the same producer; iterating that sampler to the end yields exactly the
    remaining [N - k] items, in order, with neither duplicate nor gap. *)
Theorem C1_fast_forward_correctness info items (k fuel : nat) :
  (k < length items)%nat →
  (length items < fuel)%nat →
  ∃ g1 s1 s2 s3,
    next_n k info Created (__init__ items) = (Ok (take k items), g1, s1)
    ∧ load_state_dict info (state_dict info s1 None) false (__init__ items)
      = (Ok tt, s2)
    ∧ run_pass fuel info s2 = Some (Ok (drop k items), Finished, s3)
    ∧ take k items ++ drop k items = items
    ∧ length (drop k items) = (length items - k)%nat.
Proof.
  intros Hk Hf.
  destruct (next_n_created info k (__init__ items)) as [g1 Hn];
    [done | simpl; lia |].
  set (s1 := set_current_iteration (0 + Z.of_nat k) (__init__ items)) in *.
  set (s2 := set_restarting (bool_decide (0 < 0 + Z.of_nat k))
               (set_current_iteration (0 + Z.of_nat k) (__init__ items))).
  assert (Hrun : ∃ s3,
    run_pass fuel info s2 = Some (Ok (drop k items), Finished, s3)).
  { unfold run_pass. destruct k as [|k].
    - eexists. rewrite exhaust_untouched; [by rewrite drop_0 | done | done].
    - eexists. rewrite exhaust_restored; [| by apply bool_decide_eq_true_2; lia
                                          | done | done].
      simpl _current_iteration. simpl _sampler.
      by replace (Z.to_nat (0 + Z.of_nat (S k))) with (S k) by lia. }
  destruct Hrun as [s3 Hrun].
  exists g1, s1, s2, s3. split; [exact Hn|]. split.
  { unfold state_dict. apply load_state_dict_own_entry. }
  split; [exact Hrun|]. split; [apply take_drop|]. apply length_drop.
Qed.

(** C2 — Deferred multi-worker restore.  A state with more than one worker
    entry, loaded before the workers exist, is cached as it is, the counter
    is left alone, and [restarting] is set by the sign of this worker's
    entry.  In the restart loop, at the first item for which the current
    worker's id is in the cache, that worker's entry becomes the counter
    and the cache is cleared before the position test of the item. *)
Theorem C2_deferred_restore info info' sd entry entry' c c' self self1
    (i : Z) (batch : A) rest :
  (1 < size sd)%nat →
  sd !! worker_id info = Some entry →
  entry !! "current_iteration" = Some c →
  _cached_state_dict self1 = Some sd →
  sd !! worker_id info' = Some entry' →
  entry' !! "current_iteration" = Some c' →
  load_state_dict info sd false self
  = (Ok tt, {| _sampler := _sampler self;
               restarting := bool_decide (0 < c);
               _current_iteration := _current_iteration self;
               _dataloader_batch_size := _dataloader_batch_size self;
               _cached_state_dict := Some sd |})
  ∧ restart_loop info' i (batch :: rest) self1
    = let applied :=
        {| _sampler := _sampler self1;
           restarting := bool_decide (0 < c');
           _current_iteration := c';
           _dataloader_batch_size := _dataloader_batch_size self1;
           _cached_state_dict := None |} in
      if bool_decide (c' ≤ i)
      then (Ok (Some batch, InRestart (i + 1) rest),
            set_current_iteration (c' + 1) applied)
      else restart_loop info' (i + 1) rest applied.
Proof.
  intros Hsize Hsd Hc Hcache Hsd' Hc'. split.
  - by rewrite (load_state_dict_deferred info sd entry c).
  - cbn [restart_loop]. unfold reload_cached_state at 1. py_unfold.
    rewrite Hcache. rewrite bool_decide_eq_true_2 by by rewrite Hsd'.
    rewrite (load_state_dict_known info' sd entry' c') by done.
    cbn. destruct (bool_decide (c' ≤ i)); reflexivity.
Qed.

(** While the current worker's id is not in the cache, the cache stays
    and the position test reads the sampler's own counter. *)
Lemma restart_loop_foreign_worker info sd self (i : Z) (batch : A) rest :
  _cached_state_dict self = Some sd →
  sd !! worker_id info = None →
  restart_loop info i (batch :: rest) self
  = if bool_decide (_current_iteration self ≤ i)
    then (Ok (Some batch, InRestart (i + 1) rest),
          set_current_iteration (_current_iteration self + 1) self)
    else restart_loop info (i + 1) rest self.
Proof.
  intros Hcache Hsd. cbn [restart_loop]. unfold reload_cached_state at 1.
  py_unfold. rewrite Hcache.
  rewrite bool_decide_eq_false_2 by (rewrite Hsd; by intros [? ?]).
  cbn. destruct (bool_decide _); reflexivity.
Qed.

(** C3, as the code has it — the round trip restores the reported count.
    Loading [state_dict()] of a sampler with counter [c] into a newly
    constructed sampler, under the same worker id, sets the counter to the
    reported count and [restarting] to its sign: the count is [c] when no
    batch multiplier is set ([None] or [0]) and [c * m] under a multiplier
    [m]. *)
Theorem C3_roundtrip_reported_count info self items wi :
  let reported := _compute_current_iteration self None in
  load_state_dict info (state_dict info self None) wi (__init__ items)
  = (Ok tt, {| _sampler := items;
               restarting := bool_decide (0 < reported);
               _current_iteration := reported;
               _dataloader_batch_size := None;
               _cached_state_dict := None |})
  ∧ (_dataloader_batch_size self = None ∨ _dataloader_batch_size self = Some 0
     → reported = _current_iteration self)
  ∧ (∀ m, _dataloader_batch_size self = Some m → m ≠ 0
     → reported = _current_iteration self * m).
Proof.
  intros reported. split; [|split].
  - unfold state_dict. by rewrite load_state_dict_own_entry.
  - unfold reported, _compute_current_iteration. by intros [-> | ->].
  - intros m Hm Hne. unfold reported, _compute_current_iteration.
    rewrite Hm. by rewrite (proj2 (Z.eqb_neq m 0)).
Qed.

(** C9, as the code has it — batch multiplier scaling.  With a non-zero
    multiplier [m] set by [setup] and raw counter [c], [state_dict()]
    reports [c * m]; a supplied [num_batches_processed] [n] takes the place
    of the counter and is reported as [n * m], and as [n] when no multiplier
    is set ([None], or [0], which the truthiness test treats alike). *)
Theorem C9_batch_multiplier_scaling info self (m n : Z) :
  m ≠ 0 →
  state_dict info (setup (Some m) self) None
  = {[ worker_id info :=
         {[ "current_iteration" := _current_iteration self * m ]} ]}
  ∧ state_dict info (setup (Some m) self) (Some n)
    = {[ worker_id info := {[ "current_iteration" := n * m ]} ]}
  ∧ state_dict info (setup None self) (Some n)
    = {[ worker_id info := {[ "current_iteration" := n ]} ]}
  ∧ state_dict info (setup (Some 0) self) (Some n)
    = {[ worker_id info := {[ "current_iteration" := n ]} ]}.
Proof.
  intros Hm. unfold state_dict, _compute_current_iteration. simpl.
  rewrite (proj2 (Z.eqb_neq m 0)) by done. done.
Qed.

(** C4, as the code has it — state after exhaustion.  A pass over the
    wrapped sampler comes to an end; when it ends by exhaustion the counter
    is zero in either mode.  The [restarting] flag is not cleared: when no
    cached state can be applied the pass leaves it as it found it.  A later
    pass with no cached state pending yields every item all the same. *)
Theorem C4_state_after_exhaustion info self (fuel : nat) :
  (length (_sampler self) < fuel)%nat →
  ∃ r self',
    run_pass fuel info self = Some (r, Finished, self')
    ∧ ∀ ys, r = Ok ys →
        _current_iteration self' = 0
        ∧ (restarting self = false ∨ _cached_state_dict self = None
           → restarting self' = restarting self)
        ∧ (_cached_state_dict self' = None
           → ∀ info', run_pass fuel info' self'
                      = Some (Ok (_sampler self), Finished, self')).
Proof.
  intros Hf. unfold run_pass.
  destruct (exhaust_ends info fuel Created self) as (r & self' & Hrun & Hs & Hz);
    [done|].
  exists r, self'. split; [done|]. intros ys -> .
  assert (Hzero : _current_iteration self' = 0) by by apply (Hz ys).
  split; [done|]. split.
  - intros Hquiet. destruct (restarting self) eqn:Hr.
    + destruct Hquiet as [?|Hc]; [done|].
      rewrite exhaust_restored in Hrun by done. by simplify_eq.
    + rewrite exhaust_untouched in Hrun by done. by simplify_eq.
  - intros Hc info'. rewrite <- Hs in Hf |- *.
    assert (set_current_iteration 0 self' = self') as Heta.
    { destruct self'; simpl in *; by subst. }
    destruct (restarting self') eqn:Hr.
    + rewrite exhaust_restored by (done || lia).
      rewrite Hzero, Heta. by rewrite drop_0.
    + rewrite exhaust_untouched by (done || lia). by rewrite Heta.
Qed.

End SamplerFacts.

(** *** Concrete runs *)

Lemma C1_fast_forward_correctness_witness :
  ∃ g1 s1 s2 s3,
    next_n 3 None Created (__init__ [1; 2; 3; 4; 5])
    = (Ok [1; 2; 3], g1, s1)
    ∧ load_state_dict None (state_dict None s1 None) false
        (__init__ [1; 2; 3; 4; 5]) = (Ok tt, s2)
    ∧ run_pass 6 None s2 = Some (Ok [4; 5], Finished, s3)
    ∧ [1; 2; 3] ++ [4; 5] = [1; 2; 3; 4; 5]
    ∧ length [4; 5] = 2%nat.
Proof.
  apply (C1_fast_forward_correctness None [1; 2; 3; 4; 5] 3 6); simpl; lia.
Defined.

Lemma C2_deferred_restore_witness :
  load_state_dict None two_workers false (__init__ [10; 20; 30])
  = (Ok tt, Build [10; 20; 30] true 0 None (Some two_workers))
  ∧ restart_loop (Some 1) 0 [10; 20; 30]
      (Build [10; 20; 30] true 0 None (Some two_workers))
    = restart_loop (Some 1) 1 [20; 30] (Build [10; 20; 30] true 5 None None).
Proof.
  apply (C2_deferred_restore None (Some 1) two_workers
           {[ "current_iteration" := 2 ]} {[ "current_iteration" := 5 ]}
           2 5 (__init__ [10; 20; 30])
           (Build [10; 20; 30] true 0 None (Some two_workers))
           0 10 [20; 30]).
  - vm_compute. lia.
  - reflexivity.
  - reflexivity.
  - reflexivity.
  - reflexivity.
  - reflexivity.
Defined.

(** C3 as stated fails: under a batch multiplier the restored counter is the
    scaled count, not the counter of the snapshot. *)
Lemma C3_roundtrip_counterexample :
  let self := set_current_iteration 3 (setup (Some 4) (__init__ [10; 20; 30])) in
  let fresh :=
    (load_state_dict None (state_dict None self None) false
       (__init__ [10; 20; 30])).2 in
  _current_iteration fresh = 12
  ∧ _current_iteration fresh ≠ _current_iteration self.
Proof. split; [reflexivity | discriminate]. Qed.

Lemma C3_roundtrip_reported_count_witness :
  let self := set_current_iteration 3 (setup (Some 4) (__init__ [10; 20; 30])) in
  _compute_current_iteration self None = 3 * 4.
Proof.
  intros self.
  apply (C3_roundtrip_reported_count None self [10; 20; 30] false);
    [reflexivity | lia].
Defined.

(** C9 as stated fails for the multiplier [0]: the count is reported
    unscaled, not as [c * 0]. *)
Lemma C9_batch_multiplier_counterexample :
  let self := setup (Some 0) (set_current_iteration 3 (__init__ [10; 20; 30])) in
  state_dict None self None = {[ 0 := {[ "current_iteration" := 3 ]} ]}
  ∧ state_dict None self None ≠ {[ 0 := {[ "current_iteration" := 3 * 0 ]} ]}.
Proof.
  split; [reflexivity|].
  intros H. apply (f_equal (λ sd : sampler_state,
                     sd !! 0 ≫= λ e, e !! "current_iteration")) in H.
  vm_compute in H. discriminate H.
Qed.

Lemma C9_batch_multiplier_scaling_witness :
  state_dict None (setup (Some 4) (set_current_iteration 3 (__init__ [10; 20])))
    None
  = {[ 0 := {[ "current_iteration" := 3 * 4 ]} ]}.
Proof.
  apply (C9_batch_multiplier_scaling None
           (set_current_iteration 3 (__init__ [10; 20])) 4 7). lia.
Defined.

(** C4 as stated fails: after a pass in restart mode the flag is still set. *)
Lemma C4_exhaustion_counterexample :
  let restored :=
    (load_state_dict None {[ 0 := {[ "current_iteration" := 2 ]} ]} false
       (__init__ [10; 20; 30])).2 in
  ∃ self',
    run_pass 4 None restored = Some (Ok [30], Finished, self')
    ∧ _current_iteration self' = 0
    ∧ restarting self' ≠ false.
Proof.
  eexists. split; [reflexivity|]. split; [reflexivity | discriminate].
Qed.

Lemma C4_state_after_exhaustion_witness :
  ∃ r self',
    run_pass 4 None (__init__ [10; 20; 30]) = Some (r, Finished, self')
    ∧ ∀ ys, r = Ok ys →
        _current_iteration self' = 0
        ∧ (false = false ∨ @None sampler_state = None
           → restarting self' = false)
        ∧ (_cached_state_dict self' = None
           → ∀ info', run_pass 4 info' self'
                      = Some (Ok [10; 20; 30], Finished, self')).
Proof.
  apply (C4_state_after_exhaustion None (__init__ [10; 20; 30]) 4). simpl. lia.
Defined.

(** ** Attribute access on the sampler *)

Section AttributeFacts.
Context {Obj : Type}.
Variable PyNone : Obj.
Variable builtin_getattr : Obj → string → outcome Obj.
Variable type_lookup : string → outcome Obj.

Local Abbreviation getattr3 := (getattr3 builtin_getattr).
Local Abbreviation __getattr__ := (__getattr__ PyNone builtin_getattr type_lookup).
Local Abbreviation attribute_access :=
  (attribute_access PyNone builtin_getattr type_lookup).






End AttributeFacts.



(** ** Worker-cycle bookkeeping *)

Section CoordinatorFacts.
Context {A Loader : Type}.
Implicit Types (it : loader_iter Loader) (sd : list (state_entry Loader)).

Lemma set_cycle_same it : set_cycle (_worker_queue_idx_cycle it) it = it.
Proof. by destruct it. Qed.





(** C6 — A worker-count mismatch is fatal and leaves the iterator as it was.
    Whenever the saved entry's [num_workers] is not the iterator's worker
    count, [cycle_to_next_worker] raises on the assertion, before the cursor
    is advanced and before any reset. *)
Theorem C6_worker_count_mismatch (fuel : nat) it sd (count : Z)
    (current : state_entry Loader) (saved : value Loader) (n : Z) :
  py_index sd count = Ok current →
  current !! "num_workers" = Some saved →
  _num_workers it = Some n →
  saved ≠ VInt n →
  cycle_to_next_worker fuel it sd count = Some (Raise AssertionError, it).
Proof.
  intros Hcur Hsaved Hn Hne. unfold cycle_to_next_worker.
  rewrite Hcur, Hn, Hsaved.
  assert (value_eq_int saved n = false) as ->; [|done].
  destruct saved as [|z| |]; try done. simpl.
  apply bool_decide_eq_false_2. congruence.
Qed.

(** C8 — Restoring into a data loader without a [FastForwardSampler] is a
    silent no-op: no exception, and the data loader and its samplers are
    unchanged, whatever the state list holds. *)
Theorem C8_restore_without_tracker info (dataloader : DataLoader A)
    (state_dict : list (state_entry Loader)) :
  (∀ s, sampler dataloader ≠ FastForward s) →
  (∀ s, batch_sampler dataloader ≠ FastForward s) →
  find_fast_forward_samplers dataloader = None
  ∧ dataloader_load_state_dict info state_dict dataloader = (Ok tt, dataloader).
Proof.
  intros Hs Hb.
  assert (find_fast_forward_samplers dataloader = None) as Hfind.
  { unfold find_fast_forward_samplers.
    destruct (sampler dataloader) as [s| |]; [by destruct (Hs s)|..];
      (destruct (batch_sampler dataloader) as [b| |];
         [by destruct (Hb b) | done..]). }
  split; [done|]. unfold dataloader_load_state_dict. by rewrite Hfind.
Qed.

End CoordinatorFacts.



Lemma C6_worker_count_mismatch_witness :
  cycle_to_next_worker 5 three_worker_iter [two_worker_entry] 0
  = Some (Raise AssertionError, three_worker_iter).
Proof.
  apply (C6_worker_count_mismatch 5 three_worker_iter [two_worker_entry] 0
           two_worker_entry (VInt 2) 3);
    [reflexivity | reflexivity | reflexivity | discriminate].
Defined.

Lemma C8_restore_without_tracker_witness :
  let dataloader : DataLoader nat :=
    {| sampler := OtherSampler "SequentialSampler";
       batch_sampler := OtherSampler "BatchSampler" |} in
  find_fast_forward_samplers dataloader = None
  ∧ dataloader_load_state_dict (Loader := string) None [] dataloader
    = (Ok tt, dataloader).
Proof.
  intros dataloader.
  apply (C8_restore_without_tracker None dataloader []); discriminate.
Defined.

(** ** Stripping the captured state *)

Section BatchInduction.
Context {Leaf : Type} (P : batch Leaf → Prop).
Hypothesis HAtom : ∀ a, P (Atom a).
Hypothesis HTensor : ∀ xs, P (Tensor xs).
Hypothesis HMapping : ∀ ty items,
  Forall (λ kv, P kv.2) items → P (Mapping ty items).
Hypothesis HSequence : ∀ ty items, Forall P items → P (Sequence ty items).
Hypothesis HNamedTuple : ∀ ty items, Forall P items → P (NamedTuple ty items).
Hypothesis HDataclass : ∀ ty fields,
  Forall (λ fv, P fv.2) fields → P (Dataclass ty fields).

(** Induction over a batch with the hypothesis on every item of a
    container. *)
Lemma batch_nested_ind : ∀ b, P b.
Proof.
  fix IH 1. intros [a|xs|ty items|ty items|ty items|ty fields].
  - apply HAtom.
  - apply HTensor.
  - apply HMapping. revert items.
    refine (fix go items := match items with [] => _ | (k, v) :: l => _ end).
    + constructor.
    + constructor; [apply IH | apply go].
  - apply HSequence. revert items.
    refine (fix go items := match items with [] => _ | v :: l => _ end).
    + constructor.
    + constructor; [apply IH | apply go].
  - apply HNamedTuple. revert items.
    refine (fix go items := match items with [] => _ | v :: l => _ end).
    + constructor.
    + constructor; [apply IH | apply go].
  - apply HDataclass. revert fields.
    refine (fix go items := match items with [] => _ | (k, v) :: l => _ end).
    + constructor.
    + constructor; [apply IH | apply go].
Qed.

End BatchInduction.

(** Facts on lists that the walks use. *)
Section ListFacts.
Context {X Y : Type}.

Lemma sum_list_with_zero (f : X → nat) l :
  sum_list_with f l = 0%nat → Forall (λ x, f x = 0%nat) l.
Proof.
  induction l as [|x l IH]; simpl; intros H; constructor; [lia|].
  apply IH. lia.
Qed.

Lemma sum_list_with_Forall (f g : X → nat) l :
  Forall (λ x, f x = g x) l → sum_list_with f l = sum_list_with g l.
Proof. induction 1 as [|x l Hx _ IH]; simpl; [done|]. by rewrite Hx, IH. Qed.

Lemma forallb_Forall (f : X → bool) l :
  forallb f l = true ↔ Forall (λ x, f x = true) l.
Proof.
  induction l as [|x l IH]; simpl.
  - split; [constructor | done].
  - rewrite andb_true_iff, IH. split.
    + intros [??]. by constructor.
    + intros [??]%Forall_cons. done.
Qed.

Lemma fmap_Forall (f g : X → Y) l :
  Forall (λ x, f x = g x) l → f <$> l = g <$> l.
Proof. induction 1 as [|x l Hx _ IH]; csimpl; [done|]. by rewrite Hx, IH. Qed.

Lemma fmap_fixed (f : X → X) l : Forall (λ x, f x = x) l → f <$> l = l.
Proof. induction 1 as [|x l Hx _ IH]; csimpl; [done|]. by rewrite Hx, IH. Qed.

Lemma concat_fmap_nil (f : X → list Y) l :
  Forall (λ x, f x = []) l → concat (f <$> l) = [].
Proof. induction 1 as [|x l Hx _ IH]; csimpl; [done|]. by rewrite Hx, IH. Qed.

Lemma length_concat_fmap (f : X → list Y) l :
  length (concat (f <$> l)) = sum_list_with (λ x, length (f x)) l.
Proof.
  induction l as [|x l IH]; csimpl; [done|]. by rewrite length_app, IH.
Qed.

Lemma sum_list_with_fmap_zero (f : X → Y) (g : Y → nat) l :
  Forall (λ x, g (f x) = 0%nat) l → sum_list_with g (f <$> l) = 0%nat.
Proof. induction 1 as [|x l Hx _ IH]; csimpl; [done|]. by rewrite Hx, IH. Qed.

Lemma Forall_both (P Q : X → Prop) l :
  Forall P l → Forall Q l → Forall (λ x, P x ∧ Q x) l.
Proof. induction 1; intros [??]%Forall_cons || intros _; constructor; auto. Qed.

End ListFacts.

Section StrippingFacts.
Context {Leaf : Type}.
Variable R : runtime Leaf.
Hypothesis data_not_marker : is_pl_samplers R (KStr "data") = false.

Local Abbreviation batch := (batch Leaf).
Local Abbreviation capture := (@capture Leaf).
Local Abbreviation sanetize := (_sanetize_batch_from_sampler_state R).
Local Abbreviation marker_count := (marker_count R).
Local Abbreviation find_marker := (find_marker R).
Local Abbreviation replace_marker := (replace_marker R).
Local Abbreviation as_capture := (as_capture R).
Local Abbreviation well_formed := (well_formed R).
Local Abbreviation constructible := (constructible R).
Local Abbreviation stripped := (stripped R).
Local Abbreviation left_behind := (left_behind R).
Local Abbreviation extracted := (extracted R).

(** *** Marker keys of a mapping *)

Lemma All_Forall {X} (P : X → Prop) l : All P l ↔ Forall P l.
Proof.
  induction l as [|x l IH]; simpl.
  - split; [constructor | done].
  - rewrite IH. split.
    + intros [??]. by constructor.
    + by intros [??]%Forall_cons.
Qed.

Lemma marker_count_mapping_cons ty k (v : batch) items :
  marker_count (Mapping ty ((k, v) :: items))
  = ((if is_pl_samplers R k then 1 else 0) + marker_count v
     + marker_count (Mapping ty items))%nat.
Proof. reflexivity. Qed.

Lemma find_marker_none_keys (items : list (key * batch)) :
  find_marker items = None →
  Forall (λ kv, is_pl_samplers R kv.1 = false) items.
Proof.
  induction items as [|[k v] items IH]; simpl; [constructor|].
  destruct (is_pl_samplers R k) eqn:Hk; [done|].
  intros H. constructor; [done | by apply IH].
Qed.

Lemma find_marker_split (items : list (key * batch)) st :
  find_marker items = Some st →
  ∃ pre k post,
    items = pre ++ (k, st) :: post
    ∧ is_pl_samplers R k = true
    ∧ Forall (λ kv, is_pl_samplers R kv.1 = false) pre.
Proof.
  induction items as [|[k v] items IH]; simpl; [done|].
  destruct (is_pl_samplers R k) eqn:Hk.
  - intros [= ->]. exists [], k, items. by repeat split.
  - intros (pre & k' & post & -> & Hk' & Hpre)%IH.
    exists ((k, v) :: pre), k', post. split; [done|]. split; [done|].
    by constructor.
Qed.

Lemma replace_marker_split (pre post : list (key * batch)) k st v' :
  Forall (λ kv, is_pl_samplers R kv.1 = false) pre →
  is_pl_samplers R k = true →
  replace_marker v' (pre ++ (k, st) :: post) = pre ++ (k, v') :: post.
Proof.
  intros Hpre Hk. induction Hpre as [|[k0 v0] pre Hk0 _ IH]; simpl.
  - by rewrite Hk.
  - simpl in Hk0. by rewrite Hk0, IH.
Qed.

Lemma assoc_data_replace (pre post : list (key * batch)) k st v' :
  is_pl_samplers R k = true →
  assoc (KStr "data") (pre ++ (k, v') :: post)
  = assoc (KStr "data") (pre ++ (k, st) :: post).
Proof.
  intros Hk. induction pre as [|[k0 v0] pre IH]; simpl.
  - rewrite !decide_False; [done | |]; intros ->; congruence.
  - by rewrite IH.
Qed.

Lemma assoc_Forall (P : batch → Prop) (items : list (key * batch)) k v :
  assoc k items = Some v → Forall (λ kv, P kv.2) items → P v.
Proof.
  induction items as [|[k0 v0] items IH]; simpl; [done|].
  intros H [Hv0 Hall]%Forall_cons.
  destruct (decide (k0 = k)); [by simplify_eq | by apply IH].
Qed.

Lemma marker_key_counts ty (items : list (key * batch)) st :
  find_marker items = Some st → (1 ≤ marker_count (Mapping ty items))%nat.
Proof.
  induction items as [|[k v] items IH]; simpl; [done|].
  destruct (is_pl_samplers R k); [lia|].
  intros H%IH. simpl in H. lia.
Qed.

Lemma marker_count_zero_mapping ty (items : list (key * batch)) :
  marker_count (Mapping ty items) = 0%nat →
  Forall (λ kv, is_pl_samplers R kv.1 = false ∧ marker_count kv.2 = 0%nat)
    items.
Proof.
  induction items as [|[k v] items IH]; [constructor|].
  rewrite marker_count_mapping_cons. intros H.
  constructor; [|apply IH; lia]. simpl.
  destruct (is_pl_samplers R k); [lia|]. split; [done | lia].
Qed.

Lemma one_marker_values_free ty (items : list (key * batch)) st :
  find_marker items = Some st →
  marker_count (Mapping ty items) = 1%nat →
  Forall (λ kv, marker_count kv.2 = 0%nat) items.
Proof.
  induction items as [|[k v] items IH]; [constructor|].
  rewrite marker_count_mapping_cons. simpl find_marker.
  destruct (is_pl_samplers R k) eqn:Hk.
  - intros _ H. constructor; [simpl; lia|].
    eapply Forall_impl; [apply (marker_count_zero_mapping ty); lia|].
    by intros kv [_ ?].
  - intros Hfm H. pose proof (marker_key_counts ty items st Hfm).
    constructor; [simpl; lia|]. apply IH; [done | lia].
Qed.

Lemma as_capture_inv (items : list (key * batch)) c :
  as_capture items = Some c →
  ∃ state,
    find_marker items = Some (Mapping (state_ty c) state)
    ∧ assoc (KStr "data") items = Some (payload c)
    ∧ pop (KStr "id") state = Some (Tensor (worker_ids c), samplers c).
Proof.
  unfold CaptureIterableDataset.as_capture.
  destruct (find_marker items) as [[| |sty state| | |]|]; try done.
  destruct (assoc (KStr "data") items) as [p|]; [|done].
  destruct (pop (KStr "id") state) as [[[|ids| | | |] named]|] eqn:Hpop;
    try done.
  intros [= <-]. by exists state.
Qed.

Lemma as_capture_none (items : list (key * batch)) :
  find_marker items = None → as_capture items = None.
Proof. unfold CaptureIterableDataset.as_capture. by intros ->. Qed.

Lemma well_formed_capture ty (items : list (key * batch)) st :
  find_marker items = Some st →
  well_formed (Mapping ty items) = true →
  ∃ c, as_capture items = Some c
       ∧ capture_ok c = true
       ∧ marker_count (Mapping ty items) = 1%nat.
Proof.
  intros Hfm. simpl. rewrite Hfm.
  destruct (as_capture items) as [c|]; [|done].
  intros [Hok Hone%bool_decide_eq_true_1]%andb_true_iff. by exists c.
Qed.

(** *** The walks, item by item *)

Section Walks.
Variable rec : batch → Py (list extracted_state) (batch * batch).
Variables (f_out f_left : batch → batch) (f_ex : batch → list extracted_state).

Local Abbreviation rec_agrees v :=
  (∀ acc, rec v acc = (Ok (f_out v, f_left v), acc ++ f_ex v)).

Lemma walk_mapping_prefix ty : ∀ pre rest out done acc,
  Forall (λ kv, is_pl_samplers R kv.1 = false ∧ rec_agrees kv.2) pre →
  walk_mapping R rec ty (pre ++ rest) out done acc
  = walk_mapping R rec ty rest
      (out ++ ((λ '(k, v), (k, f_out v)) <$> pre))
      (done ++ ((λ '(k, v), (k, f_left v)) <$> pre))
      (acc ++ concat ((λ '(_, v), f_ex v) <$> pre)).
Proof.
  induction pre as [|[k v] pre IH]; intros rest out done acc Hall.
  - simpl. by rewrite !app_nil_r.
  - apply Forall_cons in Hall as [[Hk Hv] Hall]. simpl in Hk, Hv.
    cbn [app walk_mapping]. rewrite Hk.
    py_unfold. rewrite Hv. cbn [fst snd].
    rewrite IH by done. csimpl. by rewrite <- !app_assoc.
Qed.

Lemma walk_sequence_all : ∀ todo acc,
  Forall (λ v, rec_agrees v) todo →
  walk_sequence rec todo acc
  = (Ok (f_out <$> todo, f_left <$> todo), acc ++ concat (f_ex <$> todo)).
Proof.
  induction todo as [|v todo IH]; intros acc Hall.
  - simpl. py_unfold. by rewrite app_nil_r.
  - apply Forall_cons in Hall as [Hv Hall].
    cbn [walk_sequence]. py_unfold. rewrite Hv. cbn.
    rewrite IH by done. cbn. by rewrite <- app_assoc.
Qed.

Lemma walk_fields_all : ∀ todo acc,
  Forall (λ fv, rec_agrees fv.2) todo →
  walk_fields rec todo acc
  = (Ok ((λ '(f, v), (f, f_out v)) <$> todo,
         (λ '(f, v), (f, f_left v)) <$> todo),
     acc ++ concat ((λ '(_, v), f_ex v) <$> todo)).
Proof.
  induction todo as [|[f v] todo IH]; intros acc Hall.
  - simpl. py_unfold. by rewrite app_nil_r.
  - apply Forall_cons in Hall as [Hv Hall]. simpl in Hv.
    cbn [walk_fields]. py_unfold. rewrite Hv. cbn.
    rewrite IH by done. cbn. by rewrite <- app_assoc.
Qed.

End Walks.

(** *** Batches without a marker *)

Lemma marker_free_fixed : ∀ b : batch,
  marker_count b = 0%nat →
  well_formed b = true ∧ stripped b = b ∧ left_behind b = b
  ∧ extracted b = [].
Proof.
  induction b as [a|xs|ty items IH|ty items IH|ty items IH|ty fields IH]
    using batch_nested_ind; intros Hmc; try done.
  - apply marker_count_zero_mapping in Hmc.
    assert (find_marker items = None) as Hfm.
    { clear IH. induction Hmc as [|[k v] items [Hk _] _ IHl]; [done|].
      simpl in *. by rewrite Hk. }
    simpl. rewrite Hfm, (as_capture_none items Hfm).
    pose proof (Forall_both _ _ _ IH Hmc) as Hall. clear IH Hmc.
    split; [|split; [|split]].
    + apply forallb_Forall. eapply Forall_impl; [exact Hall|].
      intros [k v] [Hv [Hk Hz]]; simpl in *. by apply Hv.
    + f_equal. apply fmap_fixed. eapply Forall_impl; [exact Hall|].
      intros [k v] [Hv [Hk Hz]]; simpl in *. f_equal. by apply Hv.
    + f_equal. apply fmap_fixed. eapply Forall_impl; [exact Hall|].
      intros [k v] [Hv [Hk Hz]]; simpl in *. f_equal. by apply Hv.
    + apply concat_fmap_nil. eapply Forall_impl; [exact Hall|].
      intros [k v] [Hv [Hk Hz]]; simpl in *. by apply Hv.
  - simpl. simpl in Hmc. apply sum_list_with_zero in Hmc.
    pose proof (Forall_both _ _ _ IH Hmc) as Hall. clear IH Hmc.
    split; [|split; [|split]].
    + apply forallb_Forall. eapply Forall_impl; [exact Hall|].
      intros v [Hv Hk]. by apply Hv.
    + f_equal. apply fmap_fixed. eapply Forall_impl; [exact Hall|].
      intros v [Hv Hk]. by apply Hv.
    + f_equal. apply fmap_fixed. eapply Forall_impl; [exact Hall|].
      intros v [Hv Hk]. by apply Hv.
    + apply concat_fmap_nil. eapply Forall_impl; [exact Hall|].
      intros v [Hv Hk]. by apply Hv.
  - simpl. simpl in Hmc. apply sum_list_with_zero in Hmc.
    pose proof (Forall_both _ _ _ IH Hmc) as Hall. clear IH Hmc.
    split; [|split; [|split]].
    + apply forallb_Forall. eapply Forall_impl; [exact Hall|].
      intros v [Hv Hk]. by apply Hv.
    + f_equal. apply fmap_fixed. eapply Forall_impl; [exact Hall|].
      intros v [Hv Hk]. by apply Hv.
    + f_equal. apply fmap_fixed. eapply Forall_impl; [exact Hall|].
      intros v [Hv Hk]. by apply Hv.
    + apply concat_fmap_nil. eapply Forall_impl; [exact Hall|].
      intros v [Hv Hk]. by apply Hv.
  - simpl. simpl in Hmc. apply sum_list_with_zero in Hmc.
    pose proof (Forall_both _ _ _ IH Hmc) as Hall. clear IH Hmc.
    split; [|split; [|split]].
    + apply forallb_Forall. eapply Forall_impl; [exact Hall|].
      intros [f v] [Hv Hk]; simpl in *. by apply Hv.
    + f_equal. apply fmap_fixed. eapply Forall_impl; [exact Hall|].
      intros [f v] [Hv Hk]; simpl in *. f_equal. by apply Hv.
    + f_equal. apply fmap_fixed. eapply Forall_impl; [exact Hall|].
      intros [f v] [Hv Hk]; simpl in *. f_equal. by apply Hv.
    + apply concat_fmap_nil. eapply Forall_impl; [exact Hall|].
      intros [f v] [Hv Hk]; simpl in *. by apply Hv.
Qed.

(** *** Extraction at a capture *)

Lemma counter_of_lookup (w : Z) (st : batch) c :
  counter_of w st = Some c → last_current_iteration R st w = Ok c.
Proof.
  unfold counter_of, last_current_iteration, index_key, last_item.
  destruct st as [| |? per_worker| | |]; try done.
  destruct (assoc (KInt w) per_worker) as [[| |? fields| | |]|]; try done.
  destruct (assoc (KStr "current_iteration") fields) as [[|counts| | | |]|];
    try done.
  by intros ->.
Qed.

Lemma extract_samplers_ok (w : Z) (named : list (key * batch)) :
  forallb (λ '(_, st), bool_decide (is_Some (counter_of w st))) named = true →
  extract_samplers R w named
  = Ok ((λ '(name, st),
           (name, {[ w := {[ "current_iteration" :=
                               default 0 (counter_of w st) ]} ]}))
        <$> named).
Proof.
  induction named as [|[name st] named IH]; [done|].
  simpl. rewrite andb_true_iff. intros [Hst Hall].
  apply bool_decide_eq_true_1 in Hst as [c Hc].
  rewrite (counter_of_lookup w st c Hc), IH by done.
  by rewrite Hc.
Qed.

Lemma extract_marker_capture (c : capture) state :
  pop (KStr "id") state = Some (Tensor (worker_ids c), samplers c) →
  capture_ok c = true →
  extract_marker R (Mapping (state_ty c) state)
  = Ok (Mapping (state_ty c) (samplers c), state_of_capture c).
Proof.
  intros Hpop Hok. unfold capture_ok in Hok.
  destruct (last (worker_ids c)) as [w|] eqn:Hw; [|done].
  unfold extract_marker, pop_id. rewrite Hpop.
  cbn [last_item]. rewrite Hw. cbn [items_of].
  rewrite extract_samplers_ok by done.
  unfold state_of_capture. by rewrite Hw.
Qed.

(** *** The walk on a well-formed batch *)

Lemma sanetize_well_formed : ∀ b : batch,
  well_formed b = true →
  constructible b →
  ∀ acc, sanetize b acc
         = (Ok (stripped b, left_behind b), acc ++ extracted b).
Proof.
  induction b as [a|xs|ty items IH|ty items IH|ty items IH|ty fields IH]
    using batch_nested_ind; intros Hwf Hcon acc.
  - simpl. py_unfold. by rewrite app_nil_r.
  - simpl. py_unfold. by rewrite app_nil_r.
  - destruct Hcon as [Hnew Hcon]. apply All_Forall in Hcon.
    destruct (find_marker items) as [st|] eqn:Hfm.
    + destruct (well_formed_capture ty items st Hfm Hwf)
        as (c & Hc & Hok & Hone).
      destruct (as_capture_inv items c Hc) as (state & Hfm' & Hdata & Hpop).
      rewrite Hfm in Hfm'. injection Hfm' as ->.
      pose proof (one_marker_values_free ty items _ Hfm Hone) as Hfree.
      simpl. rewrite Hc.
      destruct (find_marker_split items _ Hfm)
        as (pre & k & post & -> & Hk & Hpre).
      rewrite (replace_marker_split pre post k _ _ Hpre Hk).
      apply Forall_app in IH as [IHpre _].
      apply Forall_app in Hcon as [Hconpre _].
      apply Forall_app in Hfree as [Hfreepre _].
      assert (Forall
                (λ kv, is_pl_samplers R kv.1 = false
                       ∧ ∀ acc0, sanetize kv.2 acc0
                                 = (Ok (kv.2, kv.2), acc0 ++ [])) pre)
        as Hplain.
      { pose proof (Forall_both _ _ _ Hpre
                      (Forall_both _ _ _ IHpre
                         (Forall_both _ _ _ Hconpre Hfreepre))) as Hall.
        eapply Forall_impl; [exact Hall|].
        intros [k0 v0] (Hk0 & Hv0 & Hc0 & Hz0); simpl in *.
        split; [done|]. intros acc0.
        destruct (marker_free_fixed v0 Hz0) as (Hw & Hs & Hl & He).
        rewrite (Hv0 Hw Hc0 acc0). by rewrite Hs, Hl, He. }
      rewrite (walk_mapping_prefix _ (λ v, v) (λ v, v) (λ _, [])) by done.
      assert (((λ '(k0, v0), (k0, v0)) <$> pre) = pre) as ->.
      { apply fmap_fixed. apply Forall_forall. by intros [??] _. }
      assert (concat ((λ '(_, _), @nil extracted_state) <$> pre) = []) as ->.
      { apply concat_fmap_nil. apply Forall_forall. by intros [??] _. }
      rewrite app_nil_r. cbn [app walk_mapping]. rewrite Hk.
      rewrite (extract_marker_capture c state Hpop Hok).
      py_unfold. cbn [app].
      rewrite (assoc_data_replace pre post k (Mapping (state_ty c) state))
        by done.
      by rewrite Hdata.
    + simpl. rewrite (as_capture_none items Hfm).
      rewrite <- (app_nil_r items) at 1.
      rewrite (walk_mapping_prefix _ stripped left_behind extracted).
      * cbn [walk_mapping app]. py_unfold.
        specialize (Hnew eq_refl). cbv zeta in Hnew. by rewrite Hnew.
      * simpl in Hwf. rewrite Hfm in Hwf. apply forallb_Forall in Hwf.
        pose proof (Forall_both _ _ _ (find_marker_none_keys items Hfm)
                      (Forall_both _ _ _ IH (Forall_both _ _ _ Hwf Hcon)))
          as Hall.
        eapply Forall_impl; [exact Hall|].
        intros [k v] (Hk & Hv & Hw & Hc0); simpl in *.
        split; [done|]. by apply Hv.
  - destruct Hcon as [Hnew Hcon]. apply All_Forall in Hcon.
    simpl in Hwf. simpl. py_unfold.
    rewrite (walk_sequence_all _ stripped left_behind extracted).
    + cbv zeta in Hnew. cbn. by rewrite Hnew.
    + apply forallb_Forall in Hwf.
      pose proof (Forall_both _ _ _ IH (Forall_both _ _ _ Hwf Hcon)) as Hall.
      eapply Forall_impl; [exact Hall|]. intros v (Hv & Hw & Hc0).
      by apply Hv.
  - destruct Hcon as [Hnew Hcon]. apply All_Forall in Hcon.
    simpl in Hwf. simpl. py_unfold.
    rewrite (walk_sequence_all _ stripped left_behind extracted).
    + cbv zeta in Hnew. cbn. by rewrite Hnew.
    + apply forallb_Forall in Hwf.
      pose proof (Forall_both _ _ _ IH (Forall_both _ _ _ Hwf Hcon)) as Hall.
      eapply Forall_impl; [exact Hall|]. intros v (Hv & Hw & Hc0).
      by apply Hv.
  - destruct Hcon as [Hnew Hcon]. apply All_Forall in Hcon.
    simpl in Hwf. simpl. py_unfold.
    rewrite (walk_fields_all _ stripped left_behind extracted).
    + cbv zeta in Hnew. cbn. by rewrite Hnew.
    + apply forallb_Forall in Hwf.
      pose proof (Forall_both _ _ _ IH (Forall_both _ _ _ Hwf Hcon)) as Hall.
      eapply Forall_impl; [exact Hall|].
      intros [f v] (Hv & Hw & Hc0); simpl in *. by apply Hv.
Qed.

Lemma stripping_counts : ∀ b : batch,
  well_formed b = true →
  length (extracted b) = marker_count b ∧ marker_count (stripped b) = 0%nat.
Proof.
  induction b as [a|xs|ty items IH|ty items IH|ty items IH|ty fields IH]
    using batch_nested_ind; intros Hwf; try done.
  - destruct (find_marker items) as [st|] eqn:Hfm.
    + destruct (well_formed_capture ty items st Hfm Hwf)
        as (c & Hc & Hok & Hone).
      destruct (as_capture_inv items c Hc) as (state & _ & Hdata & _).
      pose proof (one_marker_values_free ty items _ Hfm Hone) as Hfree.
      rewrite Hone. simpl. rewrite Hc. split; [done|].
      by apply (assoc_Forall (λ v, marker_count v = 0%nat) items _ _ Hdata).
    + simpl in Hwf |- *. rewrite Hfm in Hwf.
      rewrite (as_capture_none items Hfm).
      apply forallb_Forall in Hwf.
      pose proof (Forall_both _ _ _ (find_marker_none_keys items Hfm)
                    (Forall_both _ _ _ IH Hwf)) as Hboth. clear IH Hwf Hfm.
      rewrite length_concat_fmap. split.
      * apply sum_list_with_Forall. eapply Forall_impl; [exact Hboth|].
        intros [k v] (Hk & Hv & Hw); simpl in *. rewrite Hk. by apply Hv.
      * apply sum_list_with_fmap_zero. eapply Forall_impl; [exact Hboth|].
        intros [k v] (Hk & Hv & Hw); simpl in *. rewrite Hk. by apply Hv.
  - simpl in Hwf. simpl. apply forallb_Forall in Hwf.
    pose proof (Forall_both _ _ _ IH Hwf) as Hboth. clear IH Hwf.
    rewrite length_concat_fmap. split.
    + apply sum_list_with_Forall. eapply Forall_impl; [exact Hboth|].
      intros v [Hv Hk]. by apply Hv.
    + apply sum_list_with_fmap_zero. eapply Forall_impl; [exact Hboth|].
      intros v [Hv Hk]. by apply Hv.
  - simpl in Hwf. simpl. apply forallb_Forall in Hwf.
    pose proof (Forall_both _ _ _ IH Hwf) as Hboth. clear IH Hwf.
    rewrite length_concat_fmap. split.
    + apply sum_list_with_Forall. eapply Forall_impl; [exact Hboth|].
      intros v [Hv Hk]. by apply Hv.
    + apply sum_list_with_fmap_zero. eapply Forall_impl; [exact Hboth|].
      intros v [Hv Hk]. by apply Hv.
  - simpl in Hwf. simpl. apply forallb_Forall in Hwf.
    pose proof (Forall_both _ _ _ IH Hwf) as Hboth. clear IH Hwf.
    rewrite length_concat_fmap. split.
    + apply sum_list_with_Forall. eapply Forall_impl; [exact Hboth|].
      intros [f v] [Hv Hk]; simpl in *. by apply Hv.
    + apply sum_list_with_fmap_zero. eapply Forall_impl; [exact Hboth|].
      intros [f v] [Hv Hk]; simpl in *. by apply Hv.
Qed.


End StrippingFacts.



(** * Further properties of the code *)

(** ** The position tracker: errors, counting and deferred restores *)

Section SamplerExtras.
Context {A : Type}.
Implicit Types (self : FastForwardSampler.t A) (info : worker_info).
Implicit Types (rest items : list A) (g : frame A).

Lemma exhaust_restart_frame info fuel (i : Z) rest self :
  _cached_state_dict self = None →
  (length rest < fuel)%nat →
  exhaust fuel info (InRestart i rest) self
  = Some (Ok (drop (Z.to_nat (_current_iteration self - i)) rest),
          Finished, set_current_iteration 0 self).
Proof.
  intros Hc Hf.
  remember (Z.to_nat (_current_iteration self - i)) as d eqn:Hd.
  rewrite (exhaust_same_next fuel info (InRestart i rest)
             (InRestart (i + Z.of_nat d) (drop d rest))).
  - apply exhaust_restart_in_step; [done | lia |].
    rewrite length_drop. lia.
  - unfold next. cbn [resume].
    destruct (decide (i ≤ _current_iteration self)) as [Hpos|Hneg].
    + by rewrite (restart_loop_skip info d) by (done || lia).
    + replace d with 0%nat by lia. rewrite drop_0.
      by replace (i + Z.of_nat 0) with i by lia.
Qed.


(** X1 — A state without an entry for the current worker is fatal.  When the
    state is applied at once (workers initialised, or at most one entry)
    [load_state_dict] raises [KeyError] and leaves the sampler as it was;
    when the state is deferred it raises [KeyError] after the state has been
    cached, and nothing else of the sampler changes. *)
Theorem X1_load_state_dict_missing_worker info sd self :
  sd !! worker_id info = None →
  load_state_dict info sd true self = (Raise KeyError, self)
  ∧ ((size sd ≤ 1)%nat →
     load_state_dict info sd false self = (Raise KeyError, self))
  ∧ ((1 < size sd)%nat →
     load_state_dict info sd false self
     = (Raise KeyError, set_cached_state_dict (Some sd) self)).
Proof.
  intros Hsd. unfold load_state_dict. split; [|split].
  - rewrite andb_false_r. py_unfold. by rewrite Hsd.
  - intros Hsize. rewrite bool_decide_eq_false_2 by lia.
    py_unfold. simpl. by rewrite Hsd.
  - intros Hsize. rewrite bool_decide_eq_true_2 by lia.
    py_unfold. simpl. by rewrite Hsd.
Qed.

(** X2 — In normal mode the counter counts the items handed out.  From a
    sampler that is not restarting, [k] calls of [next] (at most the length
    of the producer) yield the first [k] items unchanged and in order, raise
    the counter by exactly [k], and change nothing else of the sampler. *)
Theorem X2_normal_mode_counts info (k : nat) self :
  restarting self = false →
  (k ≤ length (_sampler self))%nat →
  ∃ g, next_n k info Created self
       = (Ok (take k (_sampler self)), g,
          {| _sampler := _sampler self;
             restarting := false;
             _current_iteration := _current_iteration self + Z.of_nat k;
             _dataloader_batch_size := _dataloader_batch_size self;
             _cached_state_dict := _cached_state_dict self |}).
Proof.
  intros Hr Hk. destruct (next_n_created info k self Hr Hk) as [g Hn].
  exists g. rewrite Hn. unfold set_current_iteration. by rewrite Hr.
Qed.

(** X3 — A pass in restart mode with nothing cached drops the items before
    the counter and yields the rest: with counter [c] it yields the items
    from position [c] on, nothing at all when [c] is at or past the end of
    the producer, and it ends with the counter at zero. *)
Theorem X3_restart_pass_fast_forwards info (fuel : nat) self :
  restarting self = true →
  _cached_state_dict self = None →
  (length (_sampler self) < fuel)%nat →
  run_pass fuel info self
  = Some (Ok (drop (Z.to_nat (_current_iteration self)) (_sampler self)),
          Finished, set_current_iteration 0 self)
  ∧ (Z.of_nat (length (_sampler self)) ≤ _current_iteration self →
     run_pass fuel info self
     = Some (Ok [], Finished, set_current_iteration 0 self)).
Proof.
  intros Hr Hc Hf. unfold run_pass.
  rewrite exhaust_restored by done. split; [done|].
  intros Hpast. by rewrite drop_ge by lia.
Qed.


(** X5 — A deferred restore reaches the worker that iterates.  When the
    state has more than one entry, the loading context's own entry is
    positive and the producer is not empty, a pass under a worker whose
    entry holds [c'] yields the items from position [c'] on: the entry is
    applied at the first item, the cache is cleared, and the pass ends with
    the counter at zero and [restarting] set by the sign of [c']. *)
Theorem X5_deferred_restore_end_to_end info info' sd entry entry' (c c' : Z)
    (fuel : nat) self :
  (1 < size sd)%nat →
  sd !! worker_id info = Some entry →
  entry !! "current_iteration" = Some c →
  0 < c →
  sd !! worker_id info' = Some entry' →
  entry' !! "current_iteration" = Some c' →
  _sampler self ≠ [] →
  (length (_sampler self) < fuel)%nat →
  ∃ loaded,
    load_state_dict info sd false self = (Ok tt, loaded)
    ∧ run_pass fuel info' loaded
      = Some (Ok (drop (Z.to_nat c') (_sampler self)), Finished,
              {| _sampler := _sampler self;
                 restarting := bool_decide (0 < c');
                 _current_iteration := 0;
                 _dataloader_batch_size := _dataloader_batch_size self;
                 _cached_state_dict := None |}).
Proof.
  intros Hsize Hsd Hc Hpos Hsd' Hc' Hne Hf.
  eexists. split; [by apply (load_state_dict_deferred info sd entry c)|].
  destruct self as [items r c0 bs cache]. simpl in Hne, Hf |- *.
  unfold set_restarting, set_cached_state_dict. simpl.
  rewrite (bool_decide_eq_true_2 (0 < c)) by done.
  set (loaded := Build items true c0 bs (Some sd)).
  set (applied := Build items (bool_decide (0 < c')) c' bs None).
  assert (next info' Created loaded
          = next info' (InRestart 0 items) applied) as Hstep.
  { rewrite next_created_restart by done.
    unfold next. cbn [resume]. subst loaded applied. simpl _sampler.
    destruct items as [|x rest]; [done|].
    cbn [restart_loop]. unfold reload_cached_state at 1 2. py_unfold.
    cbn [_cached_state_dict].
    rewrite bool_decide_eq_true_2 by by rewrite Hsd'.
    by rewrite (load_state_dict_known info' sd entry' c'). }
  unfold run_pass. destruct fuel as [|fuel]; [lia|].
  assert (exhaust (S fuel) info' Created loaded
          = exhaust (S fuel) info' (InRestart 0 items) applied) as ->.
  { cbn [exhaust]. by rewrite Hstep. }
  rewrite exhaust_restart_frame by done.
  subst applied. simpl. by rewrite Z.sub_0_r.
Qed.

(** X6 — A deferred restore is lost when the loading context's own entry is
    not positive.  [restarting] is then false, the next pass runs in normal
    mode under whatever worker iterates, yields every item, and leaves the
    cached state in place, never applied. *)
Theorem X6_deferred_restore_not_applied info info' sd entry (c : Z)
    (fuel : nat) self :
  (1 < size sd)%nat →
  sd !! worker_id info = Some entry →
  entry !! "current_iteration" = Some c →
  c ≤ 0 →
  (length (_sampler self) < fuel)%nat →
  ∃ loaded,
    load_state_dict info sd false self = (Ok tt, loaded)
    ∧ run_pass fuel info' loaded
      = Some (Ok (_sampler self), Finished,
              {| _sampler := _sampler self;
                 restarting := false;
                 _current_iteration := 0;
                 _dataloader_batch_size := _dataloader_batch_size self;
                 _cached_state_dict := Some sd |}).
Proof.
  intros Hsize Hsd Hc Hle Hf.
  eexists. split; [by apply (load_state_dict_deferred info sd entry c)|].
  unfold run_pass. rewrite exhaust_untouched.
  - simpl. by rewrite bool_decide_eq_false_2 by lia.
  - simpl. by apply bool_decide_eq_false_2; lia.
  - done.
Qed.

End SamplerExtras.

(** *** Concrete runs *)

Lemma X1_load_state_dict_missing_worker_witness :
  load_state_dict (Some 2) two_workers false (__init__ [10; 20; 30])
  = (Raise KeyError,
     set_cached_state_dict (Some two_workers) (__init__ [10; 20; 30])).
Proof.
  destruct (X1_load_state_dict_missing_worker (Some 2) two_workers
              (__init__ [10; 20; 30]) eq_refl) as (_ & _ & Hdeferred).
  apply Hdeferred. vm_compute. lia.
Defined.

Lemma X2_normal_mode_counts_witness :
  ∃ g, next_n 2 None Created (__init__ [10; 20; 30])
       = (Ok [10; 20], g, Build [10; 20; 30] false 2 None None).
Proof.
  apply (X2_normal_mode_counts None 2 (__init__ [10; 20; 30]));
    [reflexivity | simpl; lia].
Defined.

Lemma X3_restart_pass_fast_forwards_witness :
  run_pass 4 None (Build [10; 20; 30] true 1 None None)
  = Some (Ok [20; 30], Finished, Build [10; 20; 30] true 0 None None).
Proof.
  destruct (X3_restart_pass_fast_forwards None 4
              (Build [10; 20; 30] true 1 None None) eq_refl eq_refl)
    as [Hpass _]; [simpl; lia|].
  exact Hpass.
Defined.


Lemma X5_deferred_restore_end_to_end_witness :
  ∃ loaded,
    load_state_dict (Some 0) two_workers false
      (__init__ [10; 20; 30; 40; 50; 60; 70])
    = (Ok tt, loaded)
    ∧ run_pass 8 (Some 1) loaded
      = Some (Ok [60; 70], Finished,
              Build [10; 20; 30; 40; 50; 60; 70] true 0 None None).
Proof.
  apply (X5_deferred_restore_end_to_end (Some 0) (Some 1) two_workers
           {[ "current_iteration" := 2 ]} {[ "current_iteration" := 5 ]}
           2 5 8 (__init__ [10; 20; 30; 40; 50; 60; 70]));
    [vm_compute; lia | reflexivity | reflexivity | lia | reflexivity
    | reflexivity | discriminate | simpl; lia].
Defined.

Lemma X6_deferred_restore_not_applied_witness :
  let sd : sampler_state :=
    {[ 0 := {[ "current_iteration" := 0 ]};
       1 := {[ "current_iteration" := 5 ]} ]} in
  ∃ loaded,
    load_state_dict (Some 0) sd false (__init__ [10; 20; 30])
    = (Ok tt, loaded)
    ∧ run_pass 4 (Some 1) loaded
      = Some (Ok [10; 20; 30], Finished,
              Build [10; 20; 30] false 0 None (Some sd)).
Proof.
  intros sd.
  apply (X6_deferred_restore_not_applied (Some 0) (Some 1) sd
           {[ "current_iteration" := 0 ]} 0 4 (__init__ [10; 20; 30]));
    [vm_compute; lia | reflexivity | reflexivity | lia | simpl; lia].
Defined.

(** ** [__len__] *)

Section LenExtras.
Context {Obj : Type}.
Variable PyNone : Obj.
Variable builtin_getattr : Obj → string → outcome Obj.
Variable type_lookup : string → outcome Obj.
Variable builtin_len : Obj → outcome Z.

(** X7 — [len] of the sampler is the length of the attribute [sampler] of
    the wrapped sampler, not of the wrapped sampler.  On an instance as
    [__init__] leaves it (no [sampler] in its dictionary or on its class) the
    lookup goes through [__getattr__]: the result is [len] of the wrapped
    sampler's own [sampler] attribute when it has one, and [len(None)], a
    [TypeError], when it has none. *)
Theorem X7_len_reads_sampler_attribute (depth : nat) (self : instance)
    (wrapped : Obj) :
  self !! "_sampler" = Some wrapped →
  self !! "sampler" = None →
  type_lookup "sampler" = Raise AttributeError →
  (∀ inner, builtin_getattr wrapped "sampler" = Ok inner →
     __len__ PyNone builtin_getattr type_lookup builtin_len (S depth) self
     = builtin_len inner)
  ∧ (builtin_getattr wrapped "sampler" = Raise AttributeError →
     builtin_len PyNone = Raise TypeError →
     __len__ PyNone builtin_getattr type_lookup builtin_len (S depth) self
     = Raise TypeError).
Proof.
  intros Hs Hkey Htype.
  assert (attribute_access PyNone builtin_getattr type_lookup (S depth) self
            "sampler"
          = FastForwardSampler.getattr3 builtin_getattr wrapped "sampler" PyNone)
    as Haccess.
  { unfold attribute_access, getattribute. rewrite Hkey, Htype.
    simpl. rewrite Hkey. unfold getattribute. by rewrite Hs. }
  unfold __len__. rewrite Haccess. unfold FastForwardSampler.getattr3. split.
  - by intros inner ->.
  - by intros -> ->.
Qed.

End LenExtras.

(** ** The worker-selection cursor *)

Lemma cycle_next_valid (n p : Z) :
  0 < n → cycle_next (Cycle n p) = (Ok p, Cycle n ((p + 1) `mod` n)).
Proof.
  intros Hn. unfold cycle_next. simpl.
  by rewrite bool_decide_eq_false_2 by lia.
Qed.

(** The rotation stops right after the target, wherever it starts. *)
Lemma cycle_until_reaches : ∀ (fuel : nat) (n p target : Z),
  0 < n → 0 ≤ p < n → 0 ≤ target < n →
  (target - p) `mod` n < Z.of_nat fuel →
  cycle_until fuel target (Cycle n p)
  = Some (Ok tt, Cycle n ((target + 1) `mod` n)).
Proof.
  induction fuel as [|fuel IH]; intros n p target Hn Hp Ht Hd.
  - pose proof (Z.mod_pos_bound (target - p) n Hn). lia.
  - cbn [cycle_until]. rewrite cycle_next_valid by done.
    destruct (decide (p = target)) as [->|Hne].
    + by rewrite bool_decide_eq_false_2 by (intros H; by apply H).
    + rewrite bool_decide_eq_true_2 by done.
      apply IH; [done | by apply Z.mod_pos_bound | done |].
      assert ((target - (p + 1) `mod` n) `mod` n
              = (target - p) `mod` n - 1) as ->; [|lia].
      destruct (decide (p + 1 = n)) as [Hwrap|Hin].
      * replace ((p + 1) `mod` n) with 0
          by (rewrite Hwrap; by rewrite Z.mod_same by lia).
        rewrite Z.sub_0_r, (Z.mod_small target n) by lia.
        symmetry. apply Z.sub_move_r.
        symmetry. apply (Z.mod_unique_pos _ _ (-1)); lia.
      * rewrite (Z.mod_small (p + 1) n) by lia.
        destruct (decide (p < target)).
        -- rewrite !Z.mod_small by lia. lia.
        -- rewrite <- (Z.mod_unique_pos (target - (p + 1)) n (-1)
                         (target - p - 1 + n)) by lia.
           rewrite <- (Z.mod_unique_pos (target - p) n (-1)
                         (target - p + n)) by lia.
           lia.
Qed.


Section WorkerExtras.
Context {Loader : Type}.
Implicit Types (it : loader_iter Loader) (sd : list (state_entry Loader)).

Lemma fetch_previous_rotation (fuel : nat) it
    (out : list (state_entry Loader)) (n p : Z) :
  is_multiprocessing it = true →
  _num_workers it = Some n →
  _worker_queue_idx_cycle it = Cycle n p →
  0 ≤ p < n →
  n ≤ Z.of_nat fuel →
  fetch_previous_worker_state_dict fuel it out
  = Some (Ok tt, it,
          out ++ [ {[ "num_workers" := VInt n;
                      "previous_worker" := VInt ((p - 1) `mod` n) ]} ]).
Proof.
  intros Hmp Hn Hc Hp Hfuel.
  assert (0 < n) as Hpos by lia.
  unfold fetch_previous_worker_state_dict.
  rewrite Hmp, Hn, Hc, cycle_next_valid by done. simpl.
  rewrite bool_decide_eq_false_2 by lia.
  rewrite (Z.mod_small p n) by done.
  rewrite cycle_until_reaches;
    [| done | by apply Z.mod_pos_bound | by apply Z.mod_pos_bound |].
  - rewrite Zplus_mod_idemp_l. replace (p - 1 + 1) with p by lia.
    rewrite (Z.mod_small p n) by done.
    by rewrite <- Hc, set_cycle_same.
  - pose proof (Z.mod_pos_bound ((p - 1) `mod` n - (p + 1) `mod` n) n Hpos).
    lia.
Qed.

(** X8 — The bookkeeping is a full rotation.  On a multiprocessing iterator
    over [n] workers whose cursor is about to hand out worker [p], with fuel
    for one turn of the ring, [fetch_previous_worker_state_dict] succeeds,
    records [num_workers = n] and [previous_worker = (p - 1) mod n], a valid
    worker index, and leaves the iterator, cursor included, as it found
    it. *)
Theorem X8_fetch_previous_full_rotation (fuel : nat) it
    (out : list (state_entry Loader)) (n p : Z) :
  is_multiprocessing it = true →
  _num_workers it = Some n →
  _worker_queue_idx_cycle it = Cycle n p →
  0 ≤ p < n →
  n ≤ Z.of_nat fuel →
  fetch_previous_worker_state_dict fuel it out
  = Some (Ok tt, it,
          out ++ [ {[ "num_workers" := VInt n;
                      "previous_worker" := VInt ((p - 1) `mod` n) ]} ])
  ∧ 0 ≤ (p - 1) `mod` n < n.
Proof.
  intros Hmp Hn Hc Hp Hfuel. split.
  - by apply fetch_previous_rotation.
  - apply Z.mod_pos_bound. lia.
Qed.



(** X11 — What [cycle_to_next_worker] checks before it rotates.  An index
    outside the state list, an iterator without [_num_workers] and an entry
    without [num_workers] each raise with the iterator untouched; and on an
    iterator that is not a multiprocessing iterator an entry with the
    matching worker count is accepted without a cursor step or a reset,
    whatever else the entry holds. *)
Theorem X11_cycle_to_next_worker_checks (fuel : nat) it sd (count : Z) :
  (∀ e, py_index sd count = Raise e →
     cycle_to_next_worker fuel it sd count = Some (Raise e, it))
  ∧ (∀ current, py_index sd count = Ok current → _num_workers it = None →
       cycle_to_next_worker fuel it sd count = Some (Raise AttributeError, it))
  ∧ (∀ current n, py_index sd count = Ok current → _num_workers it = Some n →
       current !! "num_workers" = None →
       cycle_to_next_worker fuel it sd count = Some (Raise KeyError, it))
  ∧ (∀ current n, py_index sd count = Ok current → _num_workers it = Some n →
       current !! "num_workers" = Some (VInt n) →
       is_multiprocessing it = false →
       cycle_to_next_worker fuel it sd count = Some (Ok tt, it)).
Proof.
  unfold cycle_to_next_worker. split; [|split; [|split]].
  - by intros e ->.
  - by intros current -> ->.
  - by intros current n -> -> ->.
  - intros current n -> -> -> ->. simpl.
    by rewrite bool_decide_eq_true_2.
Qed.

(** X12 — [_find_next_worker_id] agrees with the bookkeeping.  Called with
    the iterator's own worker count on a multiprocessing iterator, it makes
    the same full rotation, leaves the iterator as it found it, and writes
    into the caller's dictionary the two entries that
    [fetch_previous_worker_state_dict] appends, over what the dictionary
    held under these keys and beside what it held under others. *)
Theorem X12_find_next_worker_id_agrees (fuel : nat) it
    (out : list (state_entry Loader))
    (state_dict : state_entry Loader) (n p : Z) :
  is_multiprocessing it = true →
  _num_workers it = Some n →
  _worker_queue_idx_cycle it = Cycle n p →
  0 ≤ p < n →
  n ≤ Z.of_nat fuel →
  ∃ updated : state_entry Loader,
    _find_next_worker_id fuel it state_dict n = Some (Ok tt, it, updated)
    ∧ fetch_previous_worker_state_dict fuel it out
      = Some (Ok tt, it,
              out ++ [ {[ "num_workers" := VInt n;
                          "previous_worker" := VInt ((p - 1) `mod` n) ]} ])
    ∧ updated !! "num_workers" = Some (VInt n)
    ∧ updated !! "previous_worker" = Some (VInt ((p - 1) `mod` n))
    ∧ (∀ k, k ≠ "num_workers" → k ≠ "previous_worker" →
         updated !! k = state_dict !! k).
Proof.
  intros Hmp Hn Hc Hp Hfuel.
  assert (0 < n) as Hpos by lia.
  exists (<[ "num_workers" := VInt n ]>
            (<[ "previous_worker" := VInt ((p - 1) `mod` n) ]> state_dict)).
  split; [|split; [|split; [|split]]].
  - unfold _find_next_worker_id.
    rewrite Hmp, Hc, cycle_next_valid by done.
    rewrite bool_decide_eq_false_2 by lia.
    rewrite (Z.mod_small p n) by done.
    rewrite cycle_until_reaches;
      [| done | by apply Z.mod_pos_bound | by apply Z.mod_pos_bound |].
    + rewrite Zplus_mod_idemp_l. replace (p - 1 + 1) with p by lia.
      rewrite (Z.mod_small p n) by done.
      rewrite <- Hc, set_cycle_same. by rewrite Hn.
    + pose proof (Z.mod_pos_bound ((p - 1) `mod` n - (p + 1) `mod` n) n Hpos).
      lia.
  - by apply fetch_previous_rotation.
  - unfold state_entry in *. apply lookup_insert_eq.
  - unfold state_entry in *.
    rewrite lookup_insert_ne by (intros [=]). apply lookup_insert_eq.
  - intros k Hk1 Hk2. unfold state_entry in *.
    by rewrite !lookup_insert_ne.
Qed.

End WorkerExtras.

(** *** Concrete runs *)

Lemma X7_len_reads_sampler_attribute_witness :
  let builtin_getattr := λ (o : option Z) (key : string),
    if decide (o = Some 7 ∧ key = "sampler") then Ok (Some 3)
    else Raise AttributeError in
  let type_lookup := λ key : string, @Raise (option Z) AttributeError in
  let builtin_len := λ o : option Z,
    match o with
    | Some 3 => Ok 5
    | _ => Raise TypeError
    end in
  let over_batch_sampler : gmap string (option Z) :=
    {[ "_sampler" := Some 7 ]} in
  let over_plain_sampler : gmap string (option Z) :=
    {[ "_sampler" := Some 8 ]} in
  __len__ None builtin_getattr type_lookup builtin_len 1 over_batch_sampler
  = Ok 5
  ∧ __len__ None builtin_getattr type_lookup builtin_len 1 over_plain_sampler
    = Raise TypeError.
Proof.
  intros builtin_getattr type_lookup builtin_len
    over_batch_sampler over_plain_sampler.
  split.
  - destruct (X7_len_reads_sampler_attribute None builtin_getattr type_lookup
                builtin_len 0 over_batch_sampler (Some 7)
                eq_refl eq_refl eq_refl) as [Hinner _].
    exact (Hinner (Some 3) eq_refl).
  - destruct (X7_len_reads_sampler_attribute None builtin_getattr type_lookup
                builtin_len 0 over_plain_sampler (Some 8)
                eq_refl eq_refl eq_refl) as [_ Hnone].
    exact (Hnone eq_refl eq_refl).
Defined.

Lemma X8_fetch_previous_full_rotation_witness :
  fetch_previous_worker_state_dict 3 three_worker_iter []
  = Some (Ok tt, three_worker_iter,
          [ {[ "num_workers" := VInt 3; "previous_worker" := VInt 0 ]} ])
  ∧ 0 ≤ 0 < 3.
Proof.
  apply (X8_fetch_previous_full_rotation 3 three_worker_iter [] 3 1);
    [reflexivity | reflexivity | reflexivity | lia | lia].
Defined.



Lemma X11_cycle_to_next_worker_checks_witness :
  cycle_to_next_worker 3 three_worker_iter [two_worker_entry] 1
  = Some (Raise IndexError, three_worker_iter)
  ∧ cycle_to_next_worker 0 (LoaderIter false (Some 2) (Cycle 2 0) [])
      [two_worker_entry] 0
    = Some (Ok tt, LoaderIter false (Some 2) (Cycle 2 0) []).
Proof.
  split.
  - destruct (X11_cycle_to_next_worker_checks 3 three_worker_iter
                [two_worker_entry] 1) as (Hindex & _).
    exact (Hindex IndexError eq_refl).
  - destruct (X11_cycle_to_next_worker_checks 0
                (LoaderIter false (Some 2) (Cycle 2 0) [])
                [two_worker_entry] 0) as (_ & _ & _ & Hplain).
    exact (Hplain two_worker_entry 2 eq_refl eq_refl eq_refl eq_refl).
Defined.

Lemma X12_find_next_worker_id_agrees_witness :
  let held : state_entry string :=
    {[ "loader" := VLoader "loader"; "num_workers" := VInt 9 ]} in
  ∃ updated : state_entry string,
    _find_next_worker_id 3 three_worker_iter held 3
    = Some (Ok tt, three_worker_iter, updated)
    ∧ fetch_previous_worker_state_dict 3 three_worker_iter []
      = Some (Ok tt, three_worker_iter,
              [ {[ "num_workers" := VInt 3; "previous_worker" := VInt 0 ]} ])
    ∧ updated !! "num_workers" = Some (VInt 3)
    ∧ updated !! "previous_worker" = Some (VInt 0)
    ∧ (∀ k, k ≠ "num_workers" → k ≠ "previous_worker" →
         updated !! k = held !! k).
Proof.
  intros held.
  apply (X12_find_next_worker_id_agrees 3 three_worker_iter [] held 3 1);
    [reflexivity | reflexivity | reflexivity | lia | lia].
Defined.

(** ** Saving and restoring a data loader *)

Section LoaderExtras.
Context {A Loader : Type}.
Implicit Types (it : loader_iter Loader) (out : list (state_entry Loader)).
Implicit Types (dataloader : DataLoader A) (info : worker_info).

Lemma py_index_in {X} (l : list X) (count : Z) x :
  0 ≤ count → l !! Z.to_nat count = Some x → py_index l count = Ok x.
Proof.
  intros Hc Hx. unfold py_index.
  rewrite (bool_decide_eq_false_2 (count < 0)) by lia.
  rewrite (bool_decide_eq_false_2 (count < 0)) by lia. by rewrite Hx.
Qed.

Lemma py_index_past {X} (l : list X) (count : Z) :
  Z.of_nat (length l) ≤ count → py_index l count = Raise IndexError.
Proof.
  intros Hc. unfold py_index.
  rewrite (bool_decide_eq_false_2 (count < 0)) by lia.
  rewrite (bool_decide_eq_false_2 (count < 0)) by lia.
  by rewrite lookup_ge_None_2 by lia.
Qed.

(** Loading the state that [state_dict] reports sets the counter to the
    reported count, at once. *)
Lemma load_saved_entry info (s s' : FastForwardSampler.t A) sl dataloader
    (entry : state_entry Loader) rest :
  find_fast_forward_samplers dataloader = Some (sl, s') →
  entry !! "sampler" = Some (VSampler (state_dict info s None)) →
  dataloader_load_state_dict info (entry :: rest) dataloader
  = (Ok tt,
     store sl
       (set_restarting (bool_decide (0 < _compute_current_iteration s None))
          (set_current_iteration (_compute_current_iteration s None) s'))
       dataloader).
Proof.
  intros Hfind Hentry. unfold dataloader_load_state_dict.
  rewrite Hfind. cbn [py_index]. simpl. rewrite Hentry.
  unfold state_dict. by rewrite load_state_dict_own_entry.
Qed.

(** X13 — Where the sampler's state is written.  With a tracked sampler in
    the data loader, [fetch_fast_forward_samplers_state_dict] writes the
    state under ["sampler"] into the entry at [count] and keeps what the
    entry held under other keys; when [count] is one past the end it appends
    the entry first; when [count] is further out it raises [IndexError] and
    leaves the empty dictionary it appended in the list.  Without a tracked
    sampler the list is not touched, whatever [count] is. *)
Theorem X13_fetch_samplers_state_dict_writes info dataloader sl
    (s : FastForwardSampler.t A) out (count : Z) :
  find_fast_forward_samplers dataloader = Some (sl, s) →
  0 ≤ count →
  (∀ entry, out !! Z.to_nat count = Some entry →
     fetch_fast_forward_samplers_state_dict info dataloader count out
     = (Ok tt,
        <[ Z.to_nat count :=
             <[ "sampler" := VSampler (state_dict info s None) ]> entry ]> out))
  ∧ (count = Z.of_nat (length out) →
     fetch_fast_forward_samplers_state_dict info dataloader count out
     = (Ok tt,
        out ++ [ <[ "sampler" := VSampler (state_dict info s None) ]> ∅ ]))
  ∧ (Z.of_nat (length out) < count →
     fetch_fast_forward_samplers_state_dict info dataloader count out
     = (Raise IndexError, out ++ [∅]))
  ∧ (∀ other : DataLoader A,
       find_fast_forward_samplers other = None →
       fetch_fast_forward_samplers_state_dict info other count out
       = (Ok tt, out)).
Proof.
  intros Hfind Hcount. unfold fetch_fast_forward_samplers_state_dict.
  split; [|split; [|split]].
  - intros entry Hentry. rewrite Hfind.
    rewrite (py_index_in out count entry) by done.
    unfold py_update.
    rewrite (bool_decide_eq_false_2 (count < 0)) by lia.
    rewrite (bool_decide_eq_false_2 (count < 0)) by lia.
    by rewrite Hentry.
  - intros ->. rewrite Hfind. rewrite py_index_past by lia.
    unfold py_update.
    rewrite (bool_decide_eq_false_2 (Z.of_nat (length out) < 0)) by lia.
    rewrite (bool_decide_eq_false_2 (Z.of_nat (length out) < 0)) by lia.
    rewrite Nat2Z.id.
    rewrite lookup_app_r by lia. rewrite Nat.sub_diag. simpl.
    rewrite insert_app_r_alt by lia. by rewrite Nat.sub_diag.
  - intros Hpast. rewrite Hfind. rewrite py_index_past by lia.
    unfold py_update.
    rewrite (bool_decide_eq_false_2 (count < 0)) by lia.
    rewrite (bool_decide_eq_false_2 (count < 0)) by lia.
    rewrite lookup_ge_None_2; [done|].
    rewrite length_app. simpl. lia.
  - intros other Hother. by rewrite Hother.
Qed.


(** X15 — Saving a data loader and loading the result into another restores
    the position.  The list that [dataloader_to_state_dict] returns, with or
    without a multiprocessing iterator, makes [dataloader_load_state_dict]
    set the counter of the other data loader's tracked sampler to the count
    the first one reports (scaled by its batch multiplier) and [restarting]
    to the sign of that count, in the same worker context; nothing is
    deferred, as the saved state has a single entry. *)
Theorem X15_save_then_load (fuel : nat) info dataloader fresh sl sl'
    (s s' : FastForwardSampler.t A) it (n p : Z) :
  find_fast_forward_samplers dataloader = Some (sl, s) →
  find_fast_forward_samplers fresh = Some (sl', s') →
  is_multiprocessing it = true →
  _num_workers it = Some n →
  _worker_queue_idx_cycle it = Cycle n p →
  0 ≤ p < n →
  n ≤ Z.of_nat fuel →
  let c := _compute_current_iteration s None in
  let restored :=
    store sl' (set_restarting (bool_decide (0 < c))
                 (set_current_iteration c s')) fresh in
  (∃ saved : list (state_entry Loader),
     dataloader_to_state_dict fuel info dataloader None
     = Some (Ok saved, None)
     ∧ dataloader_load_state_dict info saved fresh = (Ok tt, restored))
  ∧ (∃ saved : list (state_entry Loader),
       dataloader_to_state_dict fuel info dataloader (Some it)
       = Some (Ok saved, Some it)
       ∧ dataloader_load_state_dict info saved fresh = (Ok tt, restored)).
Proof.
  intros Hfind Hfresh Hmp Hn Hc Hp Hfuel c restored. split.
  - eexists. split.
    + unfold dataloader_to_state_dict,
        fetch_fast_forward_samplers_state_dict.
      rewrite Hfind. reflexivity.
    + apply (load_saved_entry info s s' sl'); [done|].
      unfold state_entry. by rewrite lookup_insert_eq.
  - eexists. split.
    + unfold dataloader_to_state_dict.
      rewrite (fetch_previous_rotation fuel it [] n p) by done.
      unfold fetch_fast_forward_samplers_state_dict. rewrite Hfind.
      reflexivity.
    + apply (load_saved_entry info s s' sl'); [done|].
      unfold state_entry. by rewrite lookup_insert_eq.
Qed.

(** X16 — The two restore entry points differ in what they look at first.
    [fast_forward_sampler_load_state_dict] reads [state_dict[count]] and its
    ["sampler"] before it looks for a tracked sampler, so with a state list
    that is too short, or an entry without ["sampler"], it raises where
    [dataloader_load_state_dict] silently returns on a data loader without a
    tracked sampler; when the entry at index 0 holds a ["sampler"] the two
    agree on every data loader. *)
Theorem X16_restore_entry_points info dataloader
    (state_dict : list (state_entry Loader)) :
  (∀ entry v, py_index state_dict 0 = Ok entry → entry !! "sampler" = Some v →
     fast_forward_sampler_load_state_dict info state_dict 0 dataloader
     = dataloader_load_state_dict info state_dict dataloader)
  ∧ (find_fast_forward_samplers dataloader = None →
     dataloader_load_state_dict info state_dict dataloader
     = (Ok tt, dataloader)
     ∧ (∀ count e, py_index state_dict count = Raise e →
          fast_forward_sampler_load_state_dict info state_dict count dataloader
          = (Raise e, dataloader))
     ∧ (∀ count entry, py_index state_dict count = Ok entry →
          entry !! "sampler" = None →
          fast_forward_sampler_load_state_dict info state_dict count dataloader
          = (Raise KeyError, dataloader))).
Proof.
  split.
  - intros entry v Hentry Hv.
    unfold fast_forward_sampler_load_state_dict, dataloader_load_state_dict.
    rewrite Hentry, Hv.
    destruct (find_fast_forward_samplers dataloader) as [[sl s]|]; [|done].
    by destruct v.
  - intros Hfind. split; [|split].
    + unfold dataloader_load_state_dict. by rewrite Hfind.
    + intros count e He. unfold fast_forward_sampler_load_state_dict.
      by rewrite He.
    + intros count entry Hentry Hnone.
      unfold fast_forward_sampler_load_state_dict. by rewrite Hentry, Hnone.
Qed.

End LoaderExtras.

(** *** Concrete runs *)

Lemma X13_fetch_samplers_state_dict_writes_witness :
  let dataloader : DataLoader Z :=
    {| sampler := FastForward (Build [10; 20; 30] false 2 (Some 4) None);
       batch_sampler := NoSampler |} in
  let state : value string :=
    VSampler {[ 0 := {[ "current_iteration" := 8 ]} ]} in
  fetch_fast_forward_samplers_state_dict None dataloader 0 [two_worker_entry]
  = (Ok tt, [ <[ "sampler" := state ]> two_worker_entry ])
  ∧ fetch_fast_forward_samplers_state_dict (Loader := string) None dataloader
      2 []
    = (Raise IndexError, [∅]).
Proof.
  intros dataloader state. split.
  - destruct (X13_fetch_samplers_state_dict_writes None dataloader in_sampler
                (Build [10; 20; 30] false 2 (Some 4) None)
                [two_worker_entry] 0 eq_refl) as (Hin & _); [lia|].
    exact (Hin two_worker_entry eq_refl).
  - destruct (X13_fetch_samplers_state_dict_writes (Loader := string) None
                dataloader in_sampler
                (Build [10; 20; 30] false 2 (Some 4) None)
                [] 2 eq_refl) as (_ & _ & Hpast & _); [lia|].
    apply Hpast. simpl. lia.
Defined.


Lemma X15_save_then_load_witness :
  let dataloader : DataLoader Z :=
    {| sampler := FastForward (Build [10; 20; 30] false 2 (Some 4) None);
       batch_sampler := NoSampler |} in
  let fresh : DataLoader Z :=
    {| sampler := OtherSampler "SequentialSampler";
       batch_sampler := FastForward (__init__ [10; 20; 30]) |} in
  let restored : DataLoader Z :=
    {| sampler := OtherSampler "SequentialSampler";
       batch_sampler := FastForward (Build [10; 20; 30] true 8 None None) |} in
  (∃ saved : list (state_entry string),
     dataloader_to_state_dict 3 None dataloader None = Some (Ok saved, None)
     ∧ dataloader_load_state_dict None saved fresh = (Ok tt, restored))
  ∧ (∃ saved : list (state_entry string),
       dataloader_to_state_dict 3 None dataloader (Some three_worker_iter)
       = Some (Ok saved, Some three_worker_iter)
       ∧ dataloader_load_state_dict None saved fresh = (Ok tt, restored)).
Proof.
  intros dataloader fresh restored.
  apply (X15_save_then_load 3 None dataloader fresh in_sampler
           in_batch_sampler (Build [10; 20; 30] false 2 (Some 4) None)
           (__init__ [10; 20; 30]) three_worker_iter 3 1);
    [reflexivity | reflexivity | reflexivity | reflexivity | reflexivity
    | lia | lia].
Defined.

Lemma X16_restore_entry_points_witness :
  let dataloader : DataLoader Z :=
    {| sampler := OtherSampler "SequentialSampler";
       batch_sampler := OtherSampler "BatchSampler" |} in
  dataloader_load_state_dict (Loader := string) None [] dataloader
  = (Ok tt, dataloader)
  ∧ fast_forward_sampler_load_state_dict (Loader := string) None [] 0
      dataloader
    = (Raise IndexError, dataloader)
  ∧ fast_forward_sampler_load_state_dict None [two_worker_entry] 0 dataloader
    = (Raise KeyError, dataloader).
Proof.
  intros dataloader.
  destruct (X16_restore_entry_points (Loader := string) None dataloader [])
    as [_ Hshort].
  destruct (Hshort eq_refl) as (Hsilent & Hindex & _).
  destruct (X16_restore_entry_points None dataloader [two_worker_entry])
    as [_ Hentry].
  destruct (Hentry eq_refl) as (_ & _ & Hkey).
  split; [exact Hsilent|]. split.
  - exact (Hindex 0 IndexError eq_refl).
  - exact (Hkey 0 two_worker_entry eq_refl eq_refl).
Defined.

(** ** Stripping: failures, the marker branch and repeated calls *)

Section StrippingExtras.
Context {Leaf : Type}.
Variable R : runtime Leaf.
Hypothesis data_not_marker : is_pl_samplers R (KStr "data") = false.

Local Abbreviation batch := (batch Leaf).
Local Abbreviation sanetize := (_sanetize_batch_from_sampler_state R).
Local Abbreviation marker_count := (marker_count R).
Local Abbreviation find_marker := (find_marker R).
Local Abbreviation as_capture := (as_capture R).
Local Abbreviation well_formed := (well_formed R).
Local Abbreviation constructible := (constructible R).
Local Abbreviation stripped := (stripped R).
Local Abbreviation left_behind := (left_behind R).
Local Abbreviation extracted := (extracted R).

(** The items before the marker are walked and kept. *)
Lemma walk_marker_free_prefix ty (pre rest : list (key * batch)) acc :
  Forall (λ kv, is_pl_samplers R kv.1 = false
                ∧ marker_count kv.2 = 0%nat ∧ constructible kv.2) pre →
  walk_mapping R sanetize ty (pre ++ rest) [] [] acc
  = walk_mapping R sanetize ty rest pre pre acc.
Proof.
  intros Hpre.
  rewrite (walk_mapping_prefix R sanetize (λ v, v) (λ v, v) (λ _, [])).
  - assert (((λ '(k0, v0), (k0, v0)) <$> pre) = pre) as ->.
    { apply fmap_fixed. apply Forall_forall. by intros [??] _. }
    assert (concat ((λ '(_, _), @nil extracted_state) <$> pre) = []) as ->.
    { apply concat_fmap_nil. apply Forall_forall. by intros [??] _. }
    by rewrite app_nil_r.
  - eapply Forall_impl; [exact Hpre|].
    intros [k v] (Hk & Hz & Hc); simpl in *. split; [done|]. intros acc0.
    destruct (marker_free_fixed R v Hz) as (Hw & Hs & Hl & He).
    rewrite (sanetize_well_formed R data_not_marker v Hw Hc acc0).
    by rewrite Hs, Hl, He.
Qed.

Lemma constructible_stripped : ∀ b : batch,
  well_formed b = true → constructible b → constructible (stripped b).
Proof.
  induction b as [a|xs|ty items IH|ty items IH|ty items IH|ty fields IH]
    using batch_nested_ind; intros Hwf Hcon; try done.
  - destruct Hcon as [Hnew Hcon]. apply All_Forall in Hcon.
    destruct (find_marker items) as [st|] eqn:Hfm.
    + destruct (well_formed_capture R ty items st Hfm Hwf)
        as (c & Hc & _ & _).
      destruct (as_capture_inv R items c Hc) as (state & _ & Hdata & _).
      simpl. rewrite Hc.
      apply (assoc_Forall (λ v, constructible v) items _ _ Hdata).
      eapply Forall_impl; [exact Hcon|]. by intros [??].
    + simpl in Hwf. rewrite Hfm in Hwf. apply forallb_Forall in Hwf.
      specialize (Hnew eq_refl). cbv zeta in Hnew.
      simpl. rewrite (as_capture_none R items Hfm).
      pose proof (Forall_both _ _ _ IH (Forall_both _ _ _ Hwf Hcon)) as Hall.
      split.
      * intros _. cbv zeta.
        assert (((λ '(k, v), (k, stripped v)) <$>
                   ((λ '(k, v), (k, stripped v)) <$> items))
                = (λ '(k, v), (k, stripped v)) <$> items) as ->; [|done].
        apply fmap_fixed. apply Forall_fmap.
        eapply Forall_impl; [exact Hall|].
        intros [k v] (_ & Hw & _); simpl in *. f_equal.
        destruct (stripping_counts R v Hw) as [_ Hz].
        by destruct (marker_free_fixed R _ Hz) as (_ & ? & _).
      * apply All_Forall. apply Forall_fmap.
        eapply Forall_impl; [exact Hall|].
        intros [k v] (Hv & Hw & Hc); simpl in *. by apply Hv.
  - destruct Hcon as [Hnew Hcon]. apply All_Forall in Hcon.
    simpl in Hwf. apply forallb_Forall in Hwf. cbv zeta in Hnew.
    pose proof (Forall_both _ _ _ IH (Forall_both _ _ _ Hwf Hcon)) as Hall.
    simpl. split.
    + assert (stripped <$> (stripped <$> items) = stripped <$> items)
        as ->; [|done].
      apply fmap_fixed. apply Forall_fmap.
      eapply Forall_impl; [exact Hall|]. intros v (_ & Hw & _); simpl.
      destruct (stripping_counts R v Hw) as [_ Hz].
      by destruct (marker_free_fixed R _ Hz) as (_ & ? & _).
    + apply All_Forall. apply Forall_fmap.
      eapply Forall_impl; [exact Hall|]. intros v (Hv & Hw & Hc); simpl.
      by apply Hv.
  - destruct Hcon as [Hnew Hcon]. apply All_Forall in Hcon.
    simpl in Hwf. apply forallb_Forall in Hwf. cbv zeta in Hnew.
    pose proof (Forall_both _ _ _ IH (Forall_both _ _ _ Hwf Hcon)) as Hall.
    simpl. split.
    + assert (stripped <$> (stripped <$> items) = stripped <$> items)
        as ->; [|done].
      apply fmap_fixed. apply Forall_fmap.
      eapply Forall_impl; [exact Hall|]. intros v (_ & Hw & _); simpl.
      destruct (stripping_counts R v Hw) as [_ Hz].
      by destruct (marker_free_fixed R _ Hz) as (_ & ? & _).
    + apply All_Forall. apply Forall_fmap.
      eapply Forall_impl; [exact Hall|]. intros v (Hv & Hw & Hc); simpl.
      by apply Hv.
  - destruct Hcon as [Hnew Hcon]. apply All_Forall in Hcon.
    simpl in Hwf. apply forallb_Forall in Hwf. cbv zeta in Hnew.
    pose proof (Forall_both _ _ _ IH (Forall_both _ _ _ Hwf Hcon)) as Hall.
    simpl. split.
    + assert (((λ '(f, v), (f, stripped v)) <$>
                 ((λ '(f, v), (f, stripped v)) <$> fields))
              = (λ '(f, v), (f, stripped v)) <$> fields) as ->; [|done].
      apply fmap_fixed. apply Forall_fmap.
      eapply Forall_impl; [exact Hall|].
      intros [f v] (_ & Hw & _); simpl in *. f_equal.
      destruct (stripping_counts R v Hw) as [_ Hz].
      by destruct (marker_free_fixed R _ Hz) as (_ & ? & _).
    + apply All_Forall. apply Forall_fmap.
      eapply Forall_impl; [exact Hall|].
      intros [f v] (Hv & Hw & Hc); simpl in *. by apply Hv.
Qed.


(** X18 — A container class that refuses the stripped items makes the walk
    fail after the items have been walked: the exception of the constructor
    is raised, and the states extracted inside the container stay in the
    accumulator. *)
Theorem X18_rebuild_failure ty (items : list batch)
    (entries : list (key * batch)) (fields : list (string * batch))
    (e : exn) acc :
  (Forall (λ v, well_formed v = true ∧ constructible v) items →
   (new_sequence R ty (stripped <$> items) = Raise e →
    sanetize (Sequence ty items) acc
    = (Raise e, acc ++ concat (extracted <$> items)))
   ∧ (new_namedtuple R ty (stripped <$> items) = Raise e →
      sanetize (NamedTuple ty items) acc
      = (Raise e, acc ++ concat (extracted <$> items))))
  ∧ (Forall (λ kv, well_formed kv.2 = true ∧ constructible kv.2) entries →
     find_marker entries = None →
     new_mapping R ty ((λ '(k, v), (k, stripped v)) <$> entries) = Raise e →
     sanetize (Mapping ty entries) acc
     = (Raise e, acc ++ concat ((λ '(_, v), extracted v) <$> entries)))
  ∧ (Forall (λ fv, well_formed fv.2 = true ∧ constructible fv.2) fields →
     new_dataclass R ty ((λ '(f, v), (f, stripped v)) <$> fields) = Raise e →
     sanetize (Dataclass ty fields) acc
     = (Raise e, acc ++ concat ((λ '(_, v), extracted v) <$> fields))).
Proof.
  split; [|split].
  - intros Hitems.
    assert (walk_sequence sanetize items acc
            = (Ok (stripped <$> items, left_behind <$> items),
               acc ++ concat (extracted <$> items))) as Hwalk.
    { apply walk_sequence_all. eapply Forall_impl; [exact Hitems|].
      intros v [Hw Hc] acc0.
      by apply (sanetize_well_formed R data_not_marker). }
    split; intros Hnew; cbn [_sanetize_batch_from_sampler_state];
      py_unfold; rewrite Hwalk; cbn; by rewrite Hnew.
  - intros Hentries Hfm Hnew. cbn [_sanetize_batch_from_sampler_state].
    rewrite <- (app_nil_r entries) at 1.
    rewrite (walk_mapping_prefix R sanetize stripped left_behind extracted).
    + cbn [walk_mapping app]. py_unfold. by rewrite Hnew.
    + pose proof (Forall_both _ _ _ (find_marker_none_keys R entries Hfm)
                    Hentries) as Hall.
      eapply Forall_impl; [exact Hall|].
      intros [k v] (Hk & Hw & Hc); simpl in *. split; [done|]. intros acc0.
      by apply (sanetize_well_formed R data_not_marker).
  - intros Hfields Hnew. cbn [_sanetize_batch_from_sampler_state]. py_unfold.
    rewrite (walk_fields_all sanetize stripped left_behind extracted).
    + cbn. by rewrite Hnew.
    + eapply Forall_impl; [exact Hfields|].
      intros [f v] [Hw Hc] acc0; simpl in *.
      by apply (sanetize_well_formed R data_not_marker).
Qed.

(** X19 — Stripping is idempotent on its result.  The stripped batch of a
    well-formed batch holds no marker, so stripping it again returns it
    unchanged, extracts nothing and leaves it as it is. *)
Theorem X19_stripping_idempotent (b : batch) :
  well_formed b = true →
  constructible b →
  convert_batch_into_state_dict R (stripped b)
  = Ok (stripped b, [], stripped b).
Proof.
  intros Hwf Hcon.
  destruct (stripping_counts R b Hwf) as [_ Hz].
  destruct (marker_free_fixed R _ Hz) as (Hw & Hs & Hl & He).
  unfold convert_batch_into_state_dict.
  rewrite (sanetize_well_formed R data_not_marker (stripped b) Hw
             (constructible_stripped b Hwf Hcon) []).
  by rewrite Hs, Hl, He.
Qed.

(** X20 — A capture can be stripped once.  The first call pops ["id"] from
    the captured state inside its argument; as a dict holds a key once, a
    second call on the same object finds no ["id"] and raises [KeyError],
    with nothing appended. *)
Theorem X20_second_stripping_fails ty (items : list (key * batch))
    (c : capture) acc :
  well_formed (Mapping ty items) = true →
  constructible (Mapping ty items) →
  as_capture items = Some c →
  pop (KStr "id") (samplers c) = None →
  ∃ left : batch,
    sanetize (Mapping ty items) acc
    = (Ok (payload c, left), acc ++ [state_of_capture c])
    ∧ ∀ acc', sanetize left acc' = (Raise KeyError, acc').
Proof.
  intros Hwf Hcon Hc Hpop.
  exists (left_behind (Mapping ty items)). split.
  - rewrite (sanetize_well_formed R data_not_marker _ Hwf Hcon acc).
    simpl. by rewrite Hc.
  - intros acc'.
    destruct (as_capture_inv R items c Hc) as (state & Hfm & _ & _).
    pose proof (well_formed_capture R ty items _ Hfm Hwf)
      as (c' & Hc' & _ & Hone).
    pose proof (one_marker_values_free R ty items _ Hfm Hone) as Hfree.
    destruct Hcon as [_ Hcon]. apply All_Forall in Hcon.
    destruct (find_marker_split R items _ Hfm)
      as (pre & k & post & -> & Hk & Hpre).
    simpl left_behind. rewrite Hc.
    rewrite (replace_marker_split R pre post k _ _ Hpre Hk).
    apply Forall_app in Hcon as [Hconpre _].
    apply Forall_app in Hfree as [Hfreepre _].
    cbn [_sanetize_batch_from_sampler_state].
    rewrite walk_marker_free_prefix.
    + cbn [walk_mapping]. rewrite Hk.
      unfold extract_marker, pop_id. rewrite Hpop. by py_unfold.
    + pose proof (Forall_both _ _ _ Hpre
                    (Forall_both _ _ _ Hfreepre Hconpre)) as Hall.
      eapply Forall_impl; [exact Hall|].
      by intros [k0 v0] (? & ? & ?).
Qed.

(** X21 — What the extraction raises on a captured state that is not
    complete.  A state without ["id"] raises [KeyError] and an empty vector
    of worker ids [IndexError]; with worker [w] the last of the ids, a
    sampler state without an entry for [w], or whose entry has no
    ["current_iteration"], raises [KeyError], and an empty vector of
    counters raises [IndexError]. *)
Theorem X21_extraction_errors sty (state named rest : list (key * batch))
    (ids : list Z) (w : Z) (name : key) ty (per_worker : list (key * batch)) :
  (pop (KStr "id") state = None →
   extract_marker R (Mapping sty state) = Raise KeyError)
  ∧ (pop (KStr "id") state = Some (Tensor [], named) →
     extract_marker R (Mapping sty state) = Raise IndexError)
  ∧ (pop (KStr "id") state
     = Some (Tensor ids, (name, Mapping ty per_worker) :: rest) →
     last ids = Some w →
     (assoc (KInt w) per_worker = None →
      extract_marker R (Mapping sty state) = Raise KeyError)
     ∧ (∀ ty' fields,
          assoc (KInt w) per_worker = Some (Mapping ty' fields) →
          (assoc (KStr "current_iteration") fields = None →
           extract_marker R (Mapping sty state) = Raise KeyError)
          ∧ (assoc (KStr "current_iteration") fields = Some (Tensor []) →
             extract_marker R (Mapping sty state) = Raise IndexError))).
Proof.
  unfold extract_marker, pop_id. split; [|split].
  - by intros ->.
  - by intros ->.
  - intros -> Hw. cbn [last_item items_of]. rewrite Hw.
    cbn [extract_samplers]. unfold last_current_iteration.
    cbn [index_key]. split.
    + by intros ->.
    + intros ty' fields ->. cbn [index_key]. split.
      * by intros ->.
      * by intros ->.
Qed.

End StrippingExtras.

(** *** Concrete runs *)


Lemma X18_rebuild_failure_witness :
  _sanetize_batch_from_sampler_state sample_runtime
    (Mapping "defaultdict" [(KStr "item", captured_item)]) []
  = (Raise TypeError,
     [[(KStr "sampler", {[ 0 := {[ "current_iteration" := 3 ]} ]})]]).
Proof.
  destruct (X18_rebuild_failure sample_runtime eq_refl "defaultdict" []
              [(KStr "item", captured_item)] [] TypeError [])
    as (_ & Hmapping & _).
  apply Hmapping; [|reflexivity|reflexivity].
  constructor; [|constructor].
  split; [reflexivity|]. simpl. repeat split; intros; reflexivity.
Defined.

Lemma X19_stripping_idempotent_witness :
  convert_batch_into_state_dict sample_runtime
    (Sequence "list" [Atom 7; Sequence "list" [Atom 3; Atom 4]])
  = Ok (Sequence "list" [Atom 7; Sequence "list" [Atom 3; Atom 4]], [],
        Sequence "list" [Atom 7; Sequence "list" [Atom 3; Atom 4]]).
Proof.
  apply (X19_stripping_idempotent sample_runtime eq_refl
           (Sequence "list" [captured_item; captured_item_reordered]));
    [reflexivity|].
  simpl. repeat split; intros; reflexivity.
Defined.

Lemma X20_second_stripping_fails_witness :
  ∃ left : batch Z,
    _sanetize_batch_from_sampler_state sample_runtime captured_item []
    = (Ok (Atom 7, left),
       [[(KStr "sampler", {[ 0 := {[ "current_iteration" := 3 ]} ]})]])
    ∧ ∀ acc',
        _sanetize_batch_from_sampler_state sample_runtime left acc'
        = (Raise KeyError, acc').
Proof.
  apply (X20_second_stripping_fails sample_runtime eq_refl "dict"
           [(KStr "data", Atom 7);
            (pl_samplers,
             Mapping "dict"
               [(KStr "id", Tensor [0; 0]);
                (KStr "sampler",
                 Mapping "dict"
                   [(KInt 0,
                     Mapping "dict"
                       [(KStr "current_iteration", Tensor [2; 3])])])])]
           (Capture (Atom 7) "dict" [0; 0]
              [(KStr "sampler",
                Mapping "dict"
                  [(KInt 0,
                    Mapping "dict"
                      [(KStr "current_iteration", Tensor [2; 3])])])])
           []);
    [reflexivity | | reflexivity | reflexivity].
  simpl. repeat split; intros; reflexivity.
Defined.

Lemma X21_extraction_errors_witness :
  extract_marker sample_runtime
    (Mapping "dict"
       [(KStr "sampler",
         Mapping "dict"
           [(KInt 0,
             Mapping "dict" [(KStr "current_iteration", Tensor [2; 3])])])])
  = Raise KeyError
  ∧ extract_marker sample_runtime
      (Mapping "dict"
         [(KStr "id", Tensor [1; 1]);
          (KStr "sampler",
           Mapping "dict"
             [(KInt 0,
               Mapping "dict" [(KStr "current_iteration", Tensor [2; 3])])])])
    = Raise KeyError.
Proof.
  split.
  - destruct (X21_extraction_errors sample_runtime "dict"
                [(KStr "sampler",
                  Mapping "dict"
                    [(KInt 0,
                      Mapping "dict"
                        [(KStr "current_iteration", Tensor [2; 3])])])]
                [] [] [] 0 (KStr "sampler") "dict" []) as (Hid & _).
    exact (Hid eq_refl).
  - destruct (X21_extraction_errors sample_runtime "dict"
                [(KStr "id", Tensor [1; 1]);
                 (KStr "sampler",
                  Mapping "dict"
                    [(KInt 0,
                      Mapping "dict"
                        [(KStr "current_iteration", Tensor [2; 3])])])]
                [] [] [1; 1] 1 (KStr "sampler") "dict"
                [(KInt 0,
                  Mapping "dict" [(KStr "current_iteration", Tensor [2; 3])])])
      as (_ & _ & Hworker).
    destruct (Hworker eq_refl eq_refl) as [Hmissing _].
    exact (Hmissing eq_refl).
Defined.
